(** * Finance Visualizer: the cleaning and aggregation pipeline of
    [streamlitfin.py], embedded over data frames of cells.

    A data frame is a list of named columns, a column a list of cells.
    Numbers are IEEE 754 binary64 values ([spec_float] with 53 bits of
    precision), as the float64 columns of pandas are: sums round, and a
    decimal beyond the range reads as infinity.
    Text is ASCII text ([string]); on it the regular-expression class [\d]
    is the digits 0-9 and case folding is the A-Z / a-z one.
    A column is a sequence of cells of any kind.  Where pandas looks at the
    dtype of a column before it looks at any cell (the accessor [.str]),
    the dtype is an argument of the model.

    What the source leaves to pandas and Python, and does not fix itself, is
    gathered in a record of functions, [pandas]: the date parser behind
    [pd.to_datetime] and its refusal of a whole column, Python's textual
    rendering of a number, the float64 read from a decimal, and the
    summation algorithms of [Series.sum] and of a [groupby].  The theorems
    hold for every such record; the worked example fixes one. *)

From Stdlib Require Import List Bool Arith ZArith QArith Qcanon.
From Stdlib Require Import Ascii String Lia Permutation Sorted SpecFloat.
Import ListNotations.

Close Scope Q_scope.
Open Scope list_scope.
Open Scope string_scope.
Open Scope nat_scope.

(** ** Numbers *)

(** A float64: a signed zero, a signed infinity, NaN, or a finite number
    [(-1)^s * m * 2^e]. *)
Definition float64 := spec_float.

Definition f64_prec : Z := 53.
Definition f64_emax : Z := 1024.

Definition f64_zero : float64 := S754_zero false.

Definition f64_add : float64 -> float64 -> float64 := SFadd f64_prec f64_emax.
Definition f64_sub : float64 -> float64 -> float64 := SFsub f64_prec f64_emax.
Definition f64_div : float64 -> float64 -> float64 := SFdiv f64_prec f64_emax.

(** [x <= y]; false when one of the two is NaN. *)
Definition f64_leb : float64 -> float64 -> bool := SFleb.

Definition f64_of_Z (z : Z) : float64 :=
  binary_normalize f64_prec f64_emax z 0 false.

Definition f64_is_nan (x : float64) : bool :=
  match x with
  | S754_nan => true
  | _ => false
  end.


(** The same float64, bit for bit. *)
Definition f64_eqb (x y : float64) : bool :=
  match x, y with
  | S754_zero s, S754_zero s' => Bool.eqb s s'
  | S754_infinity s, S754_infinity s' => Bool.eqb s s'
  | S754_nan, S754_nan => true
  | S754_finite s m e, S754_finite s' m' e' =>
      Bool.eqb s s' && Pos.eqb m m' && Z.eqb e e'
  | _, _ => false
  end.

(** ** Cells, columns, frames *)

(** A pandas [Timestamp]: calendar date and time of day. *)
Record timestamp := mkTs {
  ts_year : nat;
  ts_month : nat;
  ts_day : nat;
  ts_hour : nat;
  ts_minute : nat;
  ts_second : nat
}.

(** What a cell of a frame holds: a missing value (NaN, None, NaT), a piece
    of text, a number, or a timestamp. *)
Inductive cell :=
| NA
| Str (s : string)
| Num (x : float64)
| Ts (t : timestamp).

Definition column := list cell.
Definition frame := list (string * column).

(** The dtype of a column, as far as the accessor [.str] tells dtypes
    apart: a numeric one (int64, float64), or object, which stands for the
    text dtype as well. *)
Inductive dtype :=
| numeric_dtype
| object_dtype.

(** ** Failure *)

Inductive error :=
| KeyError (k : string)
| ValueError
| AttributeError.

Inductive result (A : Type) :=
| Ok (a : A)
| Raise (e : error).
Arguments Ok {A} a.
Arguments Raise {A} e.

Definition bind {A B} (m : result A) (f : A -> result B) : result B :=
  match m with
  | Ok a => f a
  | Raise e => Raise e
  end.

Notation "x <- m ;; k" := (bind m (fun x => k))
  (at level 61, m at next level, right associativity).

(** ** Text *)

Definition is_digit (c : ascii) : bool :=
  let n := nat_of_ascii c in (48 <=? n) && (n <=? 57).

(** The characters the pattern [[^\d\.-]] does not match. *)
Definition is_numeric_char (c : ascii) : bool :=
  is_digit c || Ascii.eqb c "." || Ascii.eqb c "-".

Fixpoint str_filter (p : ascii -> bool) (s : string) : string :=
  match s with
  | EmptyString => EmptyString
  | String c t => if p c then String c (str_filter p t) else str_filter p t
  end.

(** [s.replace(pat, '')] for a non-empty [pat]: the occurrences of [pat] are
    deleted, leftmost first and without overlap.  [skip] counts the
    characters of a matched occurrence still to be dropped. *)
Fixpoint str_remove_from (pat : string) (skip : nat) (s : string) : string :=
  match s with
  | EmptyString => EmptyString
  | String c t =>
      match skip with
      | S k => str_remove_from pat k t
      | O =>
          if negb (String.length pat =? 0) && prefix pat s
          then str_remove_from pat (String.length pat - 1) t
          else String c (str_remove_from pat 0 t)
      end
  end.

Definition str_remove (pat s : string) : string := str_remove_from pat 0 s.

Definition lower_ascii (c : ascii) : ascii :=
  let n := nat_of_ascii c in
  if (65 <=? n) && (n <=? 90) then ascii_of_nat (n + 32) else c.

Fixpoint lower (s : string) : string :=
  match s with
  | EmptyString => EmptyString
  | String c t => String (lower_ascii c) (lower t)
  end.

(** [pat] occurs somewhere in [s]. *)
Fixpoint contains (pat s : string) : bool :=
  prefix pat s ||
  match s with
  | EmptyString => false
  | String _ t => contains pat t
  end.

(** [re.search(pat, s, re.IGNORECASE)] for a pattern of letters only. *)
Definition contains_nocase (pat s : string) : bool :=
  contains (lower pat) (lower s).

Definition startswith (pre s : string) : bool := prefix pre s.

(** ** Decimal numerals *)

Definition digit_char (n : nat) : ascii := ascii_of_nat (48 + n mod 10).

Fixpoint digits_of (fuel n : nat) (acc : string) : string :=
  match fuel with
  | O => acc
  | S f =>
      let acc' := String (digit_char n) acc in
      if n <? 10 then acc' else digits_of f (n / 10) acc'
  end.

Definition str_of_nat (n : nat) : string := digits_of (S n) n EmptyString.

Fixpoint zeros (k : nat) : string :=
  match k with
  | O => EmptyString
  | S k' => String "0" (zeros k')
  end.

(** A numeral padded with zeros on the left up to [w] characters. *)
Definition zero_padded (w n : nat) : string :=
  let s := str_of_nat n in zeros (w - String.length s) ++ s.

Fixpoint span_digits (s : string) : string * string :=
  match s with
  | EmptyString => (EmptyString, EmptyString)
  | String c t =>
      if is_digit c
      then let (d, r) := span_digits t in (String c d, r)
      else (EmptyString, s)
  end.

Fixpoint digits_value (acc : Z) (s : string) : Z :=
  match s with
  | EmptyString => acc
  | String c t => digits_value (10 * acc + Z.of_nat (nat_of_ascii c - 48)) t
  end.

(** The numeric parser behind [pd.to_numeric], on text made of digits,
    points and minus signs: an optional minus sign, digits, optionally a
    point and more digits, at least one digit in all, and nothing after.
    The value is the exact decimal. *)
Definition parse_decimal (s : string) : option Qc :=
  let (neg, s1) :=
    match s with
    | String "-" t => (true, t)
    | _ => (false, s)
    end in
  let (ip, s2) := span_digits s1 in
  let (fp, s3) :=
    match s2 with
    | String "." t => span_digits t
    | _ => (EmptyString, s2)
    end in
  match s3 with
  | EmptyString =>
      if String.length ip + String.length fp =? 0 then None
      else
        let m := digits_value 0 (ip ++ fp) in
        let d := Z.to_pos (10 ^ Z.of_nat (String.length fp)) in
        Some (Q2Qc ((if neg then (- m)%Z else m) # d))
  | String _ _ => None
  end.

(** ** Timestamps as text *)

(** [strftime('%Y-%m')]. *)
Definition strftime_Ym (t : timestamp) : string :=
  zero_padded 4 (ts_year t) ++ "-" ++ zero_padded 2 (ts_month t).

(** [isoformat(sep)]: YYYY-MM-DD, the separator, HH:MM:SS. *)
Definition isoformat_sep (sep : string) (t : timestamp) : string :=
  zero_padded 4 (ts_year t) ++ "-" ++ zero_padded 2 (ts_month t) ++ "-"
  ++ zero_padded 2 (ts_day t) ++ sep
  ++ zero_padded 2 (ts_hour t) ++ ":" ++ zero_padded 2 (ts_minute t) ++ ":"
  ++ zero_padded 2 (ts_second t).

Definition isoformat : timestamp -> string := isoformat_sep "T".


(** ** Column and frame operations *)

Definition isna (c : cell) : bool :=
  match c with
  | NA => true
  | _ => false
  end.

Definition notna (c : cell) : bool := negb (isna c).

(** [Series.fillna(v)]. *)
Definition fillna (v : cell) (col : column) : column :=
  map (fun c => if isna c then v else c) col.

(** Boolean indexing [xs[mask]]: the entries at which the mask is true. *)
Fixpoint select {A} (mask : list bool) (xs : list A) : list A :=
  match mask, xs with
  | b :: mask', x :: xs' =>
      if b then x :: select mask' xs' else select mask' xs'
  | _, _ => []
  end.

(** How many rows a mask keeps. *)
Fixpoint count_true (mask : list bool) : nat :=
  match mask with
  | [] => 0
  | b :: mask' => (if b then 1 else 0) + count_true mask'
  end.

(** [df[mask]]: the same rows of every column. *)
Definition frame_select (mask : list bool) (df : frame) : frame :=
  map (fun kc => (fst kc, select mask (snd kc))) df.

(** [df[k]]; a [KeyError] when there is no such column. *)
Fixpoint getitem (df : frame) (k : string) : result column :=
  match df with
  | [] => Raise (KeyError k)
  | (k', col) :: rest => if String.eqb k' k then Ok col else getitem rest k
  end.

(** [df[k] = v]: replaces the column in place, or appends a new last one. *)
Fixpoint setitem (df : frame) (k : string) (v : column) : frame :=
  match df with
  | [] => [(k, v)]
  | (k', col) :: rest =>
      if String.eqb k' k then (k', v) :: rest else (k', col) :: setitem rest k v
  end.

(** [df[cols]]: the listed columns, in the listed order. *)
Fixpoint project (df : frame) (cols : list string) : result frame :=
  match cols with
  | [] => Ok []
  | k :: ks =>
      col <- getitem df k ;;
      rest <- project df ks ;;
      Ok ((k, col) :: rest)
  end.

Definition column_names (df : frame) : list string := map fst df.

(** [df.drop(columns=[col for col in df.columns if col.startswith("Unnamed")],
    errors="ignore")]. *)
Definition drop_unnamed (df : frame) : frame :=
  filter (fun kc => negb (startswith "Unnamed" (fst kc))) df.

(** [df.dropna(subset=[k])]. *)
Definition dropna_subset (df : frame) (k : string) : result frame :=
  col <- getitem df k ;;
  Ok (frame_select (map notna col) df).

(** Every column of the frame has [n] rows. *)
Definition rectangular (n : nat) (df : frame) : Prop :=
  Forall (fun kc => List.length (snd kc) = n) df.


(** ** What the source leaves to pandas *)

Record pandas := mkPandas {
  (** The date parser of [pd.to_datetime(..., errors="coerce")]: what a
      text or number cell of the given column parses to, if anything.  The
      column is an argument because the parser may fix one format for the
      whole column. *)
  parse_date : column -> cell -> option timestamp;
  (** [pd.to_datetime] refuses the column as a whole, [errors="coerce"]
      notwithstanding: its texts carry different UTC offsets. *)
  date_rejected : column -> bool;
  (** Python's [str] of a number. *)
  repr_num : float64 -> string;
  (** The float64 [pd.to_numeric] reads from a numeral that denotes the
      given decimal: the nearest one, or one next to it; infinity beyond the
      range.  The flag tells whether the numeral has a minus sign, which
      matters for zero: -0 reads as the negative zero. *)
  float_of_decimal : bool -> Qc -> float64;
  (** The sum [Series.sum] computes of the numbers of a column, in the order
      and with the rounding of numpy's summation. *)
  series_sum : list float64 -> float64;
  (** The sum a [groupby] computes of the numbers of one group. *)
  group_sum : list float64 -> float64
}.

(** ** The normalizer *)

Definition is_text (c : cell) : bool :=
  match c with
  | Str _ => true
  | _ => false
  end.

Definition is_num (c : cell) : bool :=
  match c with
  | Num _ => true
  | _ => false
  end.

Definition is_ts (c : cell) : bool :=
  match c with
  | Ts _ => true
  | _ => false
  end.

Section Normalizer.

Variable pd : pandas.

Definition to_datetime_cell (col : column) (c : cell) : cell :=
  match c with
  | NA => NA
  | Ts t => Ts t
  | _ =>
      match parse_date pd col c with
      | Some t => Ts t
      | None => NA
      end
  end.

(** The column [errors="coerce"] makes of a column that is not refused: a
    cell that does not parse becomes missing. *)
Definition coerce_dates (col : column) : column :=
  map (to_datetime_cell col) col.

(** The column is refused: it has cells to parse, text or numbers, and the
    parser rejects them together.  A column of timestamps and missing values
    is returned as it is. *)
Definition date_refused (col : column) : bool :=
  existsb (fun c => is_text c || is_num c) col && date_rejected pd col.

(** [pd.to_datetime(col, errors="coerce")]. *)
Definition to_datetime (col : column) : result column :=
  if date_refused col then Raise ValueError else Ok (coerce_dates col).

(** Python's [str] of a cell.  (Of a missing value pandas before version 3
    makes the text nan and pandas 3 leaves it missing; the amount is 0 in
    both.) *)
Definition str_of_cell (c : cell) : string :=
  match c with
  | NA => "nan"
  | Str s => s
  | Num x => repr_num pd x
  | Ts t => isoformat_sep " " t
  end.

(** [Series.astype(str)]. *)
Definition astype_str_cell (c : cell) : cell := Str (str_of_cell c).

(** An element-wise [.str] method: text is transformed, anything else
    becomes missing. *)
Definition str_map (f : string -> string) (c : cell) : cell :=
  match c with
  | Str s => Str (f s)
  | _ => NA
  end.

(** [pd.to_numeric(..., errors="coerce")] on one cell. *)
Definition to_numeric_cell (c : cell) : cell :=
  match c with
  | Str s =>
      match parse_decimal s with
      | Some q => Num (float_of_decimal pd (startswith "-" s) q)
      | None => NA
      end
  | Num x => Num x
  | _ => NA
  end.

(** [Series.dt.strftime("%Y-%m")]. *)
Definition dt_strftime_Ym (c : cell) : cell :=
  match c with
  | Ts t => Str (strftime_Ym t)
  | _ => NA
  end.

Definition load_and_clean (df : frame) : result frame :=
  let df := drop_unnamed df in
  date <- getitem df "Date" ;;
  parsed <- to_datetime date ;;
  let df := setitem df "Date" parsed in
  amount <- getitem df "Amount" ;;
  let df := setitem df "Amount_numeric"
    (map (str_map (str_filter is_numeric_char))
       (map (str_map (str_remove "CHF"))
          (map astype_str_cell amount))) in
  amount_numeric <- getitem df "Amount_numeric" ;;
  let df := setitem df "Amount_numeric"
    (fillna (Num f64_zero) (map to_numeric_cell amount_numeric)) in
  date <- getitem df "Date" ;;
  let df := setitem df "Month" (map dt_strftime_Ym date) in
  category <- getitem df "Category" ;;
  let df := setitem df "Category" (fillna (Str "Uncategorized") category) in
  direction <- getitem df "Received / paid" ;;
  let df := setitem df "Received / paid" (fillna (Str "Unknown") direction) in
  location <- getitem df "If shopped, where" ;;
  let df := setitem df "If shopped, where" (fillna (Str EmptyString) location) in
  dropna_subset df "Date".

(** One cell of the [Amount_numeric] column, from the [Amount] cell of its
    row. *)
Definition amount_cell (c : cell) : cell :=
  let text :=
    str_map (str_filter is_numeric_char)
      (str_map (str_remove "CHF") (astype_str_cell c)) in
  let parsed := to_numeric_cell text in
  if isna parsed then Num f64_zero else parsed.

(** The frame [load_and_clean] has built when it reaches its last step, the
    removal of the rows without a date. *)
Definition prepared (df : frame)
    (date amount category direction location : column) : frame :=
  let df := drop_unnamed df in
  let df := setitem df "Date" (coerce_dates date) in
  let df := setitem df "Amount_numeric" (map amount_cell amount) in
  let df := setitem df "Month" (map dt_strftime_Ym (coerce_dates date)) in
  let df := setitem df "Category" (fillna (Str "Uncategorized") category) in
  let df := setitem df "Received / paid" (fillna (Str "Unknown") direction) in
  setitem df "If shopped, where" (fillna (Str EmptyString) location).

(** The result of [load_and_clean], by what it finds: the columns it reads,
    in the order it reads them, and whether the dates are refused. *)
Definition load_and_clean_outcome (df : frame) : result frame :=
  match getitem df "Date" with
  | Raise e => Raise e
  | Ok date =>
      if date_refused date then Raise ValueError
      else
        match getitem df "Amount", getitem df "Category",
              getitem df "Received / paid", getitem df "If shopped, where" with
        | Ok amount, Ok category, Ok direction, Ok location =>
            Ok (frame_select (map notna (coerce_dates date))
                  (prepared df date amount category direction location))
        | Raise e, _, _, _
        | Ok _, Raise e, _, _
        | Ok _, Ok _, Raise e, _
        | Ok _, Ok _, Ok _, Raise e => Raise e
        end
  end.

End Normalizer.

(** The dtype of the direction column of a cleaned frame, read off the
    column of the raw frame.  A column that holds numbers and nothing else
    has a numeric dtype and [fillna] finds nothing to fill in it; a column
    with a missing value becomes an object column when "Unknown" is filled
    in, and a column with text is one from the start, as is a column without
    rows.  Dropping rows does not change the dtype. *)
Definition direction_dtype (raw_direction : column) : dtype :=
  match raw_direction with
  | [] => object_dtype
  | _ :: _ =>
      if forallb is_num raw_direction then numeric_dtype else object_dtype
  end.

(** ** The aggregator *)

(** Equality of cells as values: text by characters, numbers and timestamps
    by their fields.  (Of numbers this keeps 0.0 and -0.0 apart, which
    pandas takes for equal; the keys the page compares are months and
    categories, text.) *)
Definition timestamp_eqb (a b : timestamp) : bool :=
  (ts_year a =? ts_year b) && (ts_month a =? ts_month b)
  && (ts_day a =? ts_day b) && (ts_hour a =? ts_hour b)
  && (ts_minute a =? ts_minute b) && (ts_second a =? ts_second b).

Definition cell_eqb (a b : cell) : bool :=
  match a, b with
  | NA, NA => true
  | Str s, Str t => String.eqb s t
  | Num p, Num q => f64_eqb p q
  | Ts t, Ts u => timestamp_eqb t u
  | _, _ => false
  end.

(** The element-wise comparison [column == value]: a missing value equals
    nothing, not even a missing value. *)
Definition elem_eq (value c : cell) : bool := notna c && cell_eqb value c.

(** An order on cells for sorting keys: text by code points, numbers by
    value, timestamps by date; the kinds are kept apart. *)
Definition cell_rank (c : cell) : nat :=
  match c with
  | NA => 0
  | Num _ => 1
  | Str _ => 2
  | Ts _ => 3
  end.

Definition cell_leb (a b : cell) : bool :=
  match a, b with
  | Str s, Str t => String.leb s t
  | Num p, Num q => f64_leb p q
  | Ts t, Ts u => String.leb (isoformat t) (isoformat u)
  | _, _ => cell_rank a <=? cell_rank b
  end.

Section Keys.

Context {K : Type}.
Variable eqb : K -> K -> bool.
Variable leb : K -> K -> bool.

(** The distinct values, in order of first appearance ([Series.unique],
    the groups of a [groupby]). *)
Fixpoint unique (l : list K) : list K :=
  match l with
  | [] => []
  | x :: t => x :: filter (fun y => negb (eqb x y)) (unique t)
  end.

Fixpoint insert_sorted (x : K) (l : list K) : list K :=
  match l with
  | [] => [x]
  | y :: t => if leb x y then x :: l else y :: insert_sorted x t
  end.

Fixpoint sort (l : list K) : list K :=
  match l with
  | [] => []
  | x :: t => insert_sorted x (sort t)
  end.

End Keys.

(** [sorted(df["Month"].unique(), reverse=True)]. *)
Definition month_list (df : frame) : result (list cell) :=
  month <- getitem df "Month" ;;
  Ok (sort (fun a b => cell_leb b a) (unique cell_eqb month)).

(** [df[df["Month"] == selected_month]]. *)
Definition month_df (df : frame) (selected_month : cell) : result frame :=
  month <- getitem df "Month" ;;
  Ok (frame_select (map (elem_eq selected_month) month) df).

(** The accessor [Series.str].  It is refused, with an AttributeError, on a
    column of numeric dtype, whatever its rows and also without any row; on
    an object column it is refused when the values of the column, the
    missing ones left aside, are numbers only or timestamps only. *)
Definition str_accessor (d : dtype) (col : column) : result column :=
  match d with
  | numeric_dtype => Raise AttributeError
  | object_dtype =>
      if existsb notna col
         && (forallb (fun c => isna c || is_num c) col
             || forallb (fun c => isna c || is_ts c) col)
      then Raise AttributeError
      else Ok col
  end.

(** [pat] in a cell, under [case=False, na=False]: a cell that is not text
    does not match. *)
Definition cell_contains_nocase (pat : string) (c : cell) : bool :=
  match c with
  | Str s => contains_nocase pat s
  | _ => false
  end.

(** [Series.str.contains(pat, case=False, na=False)] on a column of dtype
    [d]. *)
Definition str_contains_nocase (d : dtype) (pat : string) (col : column)
  : result (list bool) :=
  texts <- str_accessor d col ;;
  Ok (map (cell_contains_nocase pat) texts).


(** The numbers of a column that a sum adds: missing values are skipped,
    NaN among them. *)
Definition numbers (col : column) : list float64 :=
  flat_map
    (fun c =>
       match c with
       | Num x => if f64_is_nan x then [] else [x]
       | _ => []
       end) col.

Definition net (received_total paid_total : float64) : float64 :=
  f64_sub received_total paid_total.

(** The keys of a [groupby]: rows with a missing key are left out and the
    groups come sorted. *)
Definition group_keys (keys : column) : list cell :=
  sort cell_leb (unique cell_eqb (filter notna keys)).

Definition pair_eqb (a b : cell * cell) : bool :=
  cell_eqb (fst a) (fst b) && cell_eqb (snd a) (snd b).

Definition pair_leb (a b : cell * cell) : bool :=
  if cell_eqb (fst a) (fst b) then cell_leb (snd a) (snd b)
  else cell_leb (fst a) (fst b).

Definition pair_notna (p : cell * cell) : bool := notna (fst p) && notna (snd p).

Section Aggregator.

Variable pd : pandas.

(** [Series.sum()] of a numeric column; 0 when there is nothing to add. *)
Definition col_sum (col : column) : float64 :=
  match numbers col with
  | [] => f64_zero
  | x :: xs => series_sum pd (x :: xs)
  end.

(** [month_df[month_df["Received / paid"].str.contains(pat, case=False,
    na=False)]["Amount_numeric"].sum()], the direction column being of
    dtype [d]. *)
Definition total_matching (d : dtype) (pat : string) (month_df : frame)
  : result float64 :=
  direction <- getitem month_df "Received / paid" ;;
  matching <- str_contains_nocase d pat direction ;;
  amounts <- getitem (frame_select matching month_df) "Amount_numeric" ;;
  Ok (col_sum amounts).

Definition paid_total (d : dtype) : frame -> result float64 :=
  total_matching d "Paid".
Definition received_total (d : dtype) : frame -> result float64 :=
  total_matching d "Received".

(** The sum of one group: the numbers of [vals] in the rows of the group. *)
Definition sum_of_group (in_group : list bool) (vals : column) : cell :=
  Num (group_sum pd (numbers (select in_group vals))).

(** The frame a [groupby] on one key gives: a column of the groups and a
    column of the sums of [vals] over the rows of each group. *)
Definition group_sums (k v : string) (keys vals : column) : frame :=
  let groups := group_keys keys in
  [(k, groups);
   (v, map (fun g => sum_of_group (map (cell_eqb g) keys) vals) groups)].

(** [df.groupby(k, as_index=False)[v].sum()]. *)
Definition groupby_sum (df : frame) (k v : string) : result frame :=
  keys <- getitem df k ;;
  vals <- getitem df v ;;
  Ok (group_sums k v keys vals).

(** The frame a [groupby] on two keys gives. *)
Definition group2_sums (k1 k2 v : string) (keys1 keys2 vals : column) : frame :=
  let keys := combine keys1 keys2 in
  let groups := sort pair_leb (unique pair_eqb (filter pair_notna keys)) in
  [(k1, map fst groups);
   (k2, map snd groups);
   (v, map (fun g => sum_of_group (map (pair_eqb g) keys) vals) groups)].

(** [df.groupby([k1, k2], as_index=False)[v].sum()]. *)
Definition groupby2_sum (df : frame) (k1 k2 v : string) : result frame :=
  keys1 <- getitem df k1 ;;
  keys2 <- getitem df k2 ;;
  vals <- getitem df v ;;
  Ok (group2_sums k1 k2 v keys1 keys2 vals).

Definition cat_sum (month_df : frame) : result frame :=
  groupby_sum month_df "Category" "Amount_numeric".

Definition cat_type (month_df : frame) : result frame :=
  groupby2_sum month_df "Category" "Received / paid" "Amount_numeric".

End Aggregator.

Definition cols : list string :=
  ["Date"; "Category"; "Amount"; "Received / paid"; "If shopped, where"].

Definition at_midnight (t : timestamp) : bool :=
  (ts_hour t =? 0) && (ts_minute t =? 0) && (ts_second t =? 0).

Definition date_str (t : timestamp) : string :=
  zero_padded 4 (ts_year t) ++ "-" ++ zero_padded 2 (ts_month t) ++ "-"
  ++ zero_padded 2 (ts_day t).

(** [astype(str)] of a datetime column: the date alone when no value of the
    column has a time of day.  A missing date stays missing, as in
    pandas 3 (earlier versions write the text NaT); the frames the page
    shows have none. *)
Definition datetime_astype_str (col : column) : column :=
  let date_only :=
    forallb (fun c => match c with Ts t => at_midnight t | _ => true end) col in
  map (fun c =>
         match c with
         | Ts t => Str (if date_only then date_str t else isoformat_sep " " t)
         | _ => c
         end) col.

(** The detail table, also what the month's CSV download holds. *)
Definition month_df_display (month_df : frame) : result frame :=
  shown <- project month_df cols ;;
  date <- getitem shown "Date" ;;
  Ok (setitem shown "Date" (datetime_astype_str date)).

(** Everything the page shows for one selected month. *)
Record views := mkViews {
  v_paid_total : float64;
  v_received_total : float64;
  v_net : float64;
  v_cat_sum : frame;
  v_cat_type : frame;
  v_detail : frame
}.

(** The page for one selected month: lines 48 to 106.  [d] is the dtype of
    the direction column of [df]. *)
Definition dashboard (pd : pandas) (d : dtype) (df : frame)
    (selected_month : cell) : result views :=
  mdf <- month_df df selected_month ;;
  paid <- paid_total pd d mdf ;;
  received <- received_total pd d mdf ;;
  cs <- cat_sum pd mdf ;;
  ct <- cat_type pd mdf ;;
  detail <- month_df_display mdf ;;
  Ok (mkViews paid received (net received paid) cs ct detail).

(** ** The rules of the specification, cell by cell *)


(** The characters an amount is read from: digits, point, minus sign. *)
Definition amount_characters : list ascii :=
  list_ascii_of_string "0123456789.-".

Definition amount_character (c : ascii) : bool :=
  existsb (Ascii.eqb c) amount_characters.

(** What is left of a piece of text once the token CHF is deleted and then
    every character that is not a digit, a point or a minus sign. *)
Definition amount_numeral (text : string) : string :=
  str_filter amount_character (str_remove "CHF" text).

(** The decimal a piece of text stands for: that of its numeral, if it is
    one. *)
Definition normalized_decimal (text : string) : option Qc :=
  parse_decimal (amount_numeral text).



Definition is_timestamp (c : cell) : Prop := exists t, c = Ts t.


(** The cell holds text or nothing, as the cells of a column of text read
    from a CSV file do. *)
Definition text_or_missing (c : cell) : Prop := is_text c = true \/ c = NA.

Definition has_column (df : frame) (k : string) : bool :=
  existsb (String.eqb k) (column_names df).


(** The records of a frame as rows: month, direction and amount side by
    side. *)
Definition record_rows (month direction amounts : column)
  : list (cell * (cell * cell)) :=
  combine month (combine direction amounts).

Definition row_month (r : cell * (cell * cell)) : cell := fst r.
Definition row_direction (r : cell * (cell * cell)) : cell := fst (snd r).
Definition row_amount_cell (r : cell * (cell * cell)) : cell := snd (snd r).

(** The direction of the row contains [pat], whatever the case of the
    letters. *)
Definition classified (pat : string) (r : cell * (cell * cell)) : bool :=
  cell_contains_nocase pat (row_direction r).

(** The cell is text that has [word] as a contiguous part, the case of the
    letters left aside. *)
Definition mentions (word : string) (c : cell) : Prop :=
  exists s a b, c = Str s /\ lower s = a ++ lower word ++ b.

(** The record is one of month [m] whose direction mentions [word]. *)
Definition counted (word : string) (m : cell) (r : cell * (cell * cell))
  : Prop :=
  row_month r = m /\ m <> NA /\ mentions word (row_direction r).

(** The rows of month [m] that the code counts for [pat], as a mask. *)
Definition matching_rows (pat : string) (m : cell)
    (rows : list (cell * (cell * cell))) : list bool :=
  map (fun r => elem_eq m (row_month r) && classified pat r) rows.

(** [mask] marks the rows that satisfy [P], and no other. *)
Definition marks {A} (P : A -> Prop) (rows : list A) (mask : list bool)
  : Prop :=
  Forall2 (fun r b => b = true <-> P r) rows mask.


(** The float64 without bits below the point: what 100, 200 and the like
    are. *)
Definition whole (z : Z) : cell := Num (f64_of_Z z).

(** ** A worked example *)

(** *** One pandas *)

Definition number_text (s : string) : nat := Z.to_nat (digits_value 0 s).

Definition is_leap_year (y : nat) : bool :=
  ((y mod 4 =? 0) && negb (y mod 100 =? 0)) || (y mod 400 =? 0).

Definition days_in_month (y m : nat) : nat :=
  match m with
  | 2 => if is_leap_year y then 29 else 28
  | 4 | 6 | 9 | 11 => 30
  | _ => 31
  end.

(** A date written YYYY-MM-DD. *)
Definition iso_parse_text (s : string) : option timestamp :=
  let (y, r1) := span_digits s in
  match r1 with
  | String "-" r2 =>
      let (m, r3) := span_digits r2 in
      match r3 with
      | String "-" r4 =>
          let (d, r5) := span_digits r4 in
          match r5 with
          | EmptyString =>
              let year := number_text y in
              let month := number_text m in
              let day := number_text d in
              if (String.length y =? 4) && (String.length m =? 2)
                 && (String.length d =? 2) && (1 <=? year)
                 && (1 <=? month) && (month <=? 12)
                 && (1 <=? day) && (day <=? days_in_month year month)
              then Some (mkTs year month day 0 0 0)
              else None
          | String _ _ => None
          end
      | _ => None
      end
  | _ => None
  end.

(** The date parser on a column of text whose dates are written
    YYYY-MM-DD: the format is taken from the first date, and text that is
    not a date in that format does not parse. *)
Definition iso_parse_date (col : column) (c : cell) : option timestamp :=
  match c with
  | Str s => iso_parse_text s
  | _ => None
  end.

(** Dates without UTC offsets are never refused. *)
Definition no_offsets (col : column) : bool := false.

(** The float64 nearest to a decimal, ties to the even mantissa, infinity
    beyond the range: what a correctly rounding reader gives.  Zero takes
    the sign of the numeral. *)
Definition nearest_float64 (minus : bool) (q : Qc) : float64 :=
  match Qnum q with
  | Z0 => S754_zero minus
  | Zpos n => f64_div (S754_finite false n 0) (S754_finite false (Qden q) 0)
  | Zneg n => f64_div (S754_finite true n 0) (S754_finite false (Qden q) 0)
  end.

(** Decimal digits of a non-negative integer. *)
Fixpoint Z_digits (fuel : nat) (z : Z) (acc : string) : string :=
  match fuel with
  | O => acc
  | S f =>
      let acc' := String (ascii_of_nat (48 + Z.to_nat (z mod 10))) acc in
      if (z <? 10)%Z then acc' else Z_digits f (z / 10) acc'
  end.

Definition str_of_Z (z : Z) : string := Z_digits 400 z EmptyString.

(** [10^t <= n / d], for [n] and [d] positive. *)
Definition pow10_le (t n d : Z) : bool :=
  match t with
  | Zneg p => (d <=? n * 10 ^ Zpos p)%Z
  | _ => (10 ^ t * d <=? n)%Z
  end.

(** The exponent [t] with [10^t <= n / d < 10^(t+1)], searched from [t]. *)
Fixpoint decimal_exponent (fuel : nat) (n d t : Z) : Z :=
  match fuel with
  | O => t
  | S f =>
      if pow10_le (t + 1) n d then decimal_exponent f n d (t + 1)
      else if pow10_le t n d then t
      else decimal_exponent f n d (t - 1)
  end.

Fixpoint strip_zeros (s : list ascii) : list ascii :=
  match s with
  | "0"%char :: t => strip_zeros t
  | _ => s
  end.

Definition strip_trailing_zeros (s : string) : string :=
  string_of_list_ascii (rev (strip_zeros (rev (list_ascii_of_string s)))).

(** The shortest decimal that reads back as the float [m * 2^e], which is
    [n / d]: its digits without trailing zeros, and the decimal exponent of
    its first digit.  Decimals of [p] digits are tried for [p] = 1, 2, ...;
    of two that read back, the nearer one is taken. *)
Fixpoint shortest_digits (fuel : nat) (p : Z) (m : positive) (e : Z)
    (n d t : Z) : string * Z :=
  let k := (p - 1 - t)%Z in
  let n' := match k with Zneg _ => n | _ => (n * 10 ^ k)%Z end in
  let d' := match k with Zneg q => (d * 10 ^ Zpos q)%Z | _ => d end in
  let lo := (n' / d')%Z in
  let r := (n' mod d')%Z in
  let hi := (lo + 1)%Z in
  let back c :=
    f64_eqb
      (nearest_float64 false
         (Q2Qc (match k with
                | Zneg q => Qmake (c * 10 ^ Zpos q) 1
                | _ => Qmake c (Z.to_pos (10 ^ k))
                end)))
      (S754_finite false m e) in
  let give c := (strip_trailing_zeros (str_of_Z c),
                 (Z.of_nat (String.length (str_of_Z c)) - 1 - k)%Z) in
  let lo_ok := back lo in
  let hi_ok := back hi in
  match fuel with
  | O => give lo
  | S f =>
      if lo_ok && hi_ok then
        if (2 * r <? d')%Z then give lo
        else if (d' <? 2 * r)%Z then give hi
        else if Z.even lo then give lo else give hi
      else if lo_ok then give lo
      else if hi_ok then give hi
      else shortest_digits f (p + 1) m e n d t
  end.

(** Python's [str] of a float: the shortest decimal that reads back as the
    same float, with an exponent when it is below 1e-4 or from 1e16 on. *)
Definition str_float64 (x : float64) : string :=
  match x with
  | S754_nan => "nan"
  | S754_infinity s => if s then "-inf" else "inf"
  | S754_zero s => if s then "-0.0" else "0.0"
  | S754_finite s m e =>
      let n := match e with Zneg _ => Zpos m | _ => (Zpos m * 2 ^ e)%Z end in
      let d := match e with Zneg q => (2 ^ Zpos q)%Z | _ => 1%Z end in
      let t := decimal_exponent 700 n d 0 in
      let (ds, x10) := shortest_digits 17 1 m e n d t in
      let len := String.length ds in
      (if s then "-" else EmptyString) ++
      (if (-4 <=? x10)%Z && (x10 <? 16)%Z then
         match x10 with
         | Zneg q => "0." ++ zeros (Pos.to_nat q - 1) ++ ds
         | _ =>
             let w := S (Z.to_nat x10) in
             if len <=? w then ds ++ zeros (w - len) ++ ".0"
             else substring 0 w ds ++ "." ++ substring w (len - w) ds
         end
       else
         substring 0 1 ds
         ++ (if len <=? 1 then EmptyString
             else "." ++ substring 1 (len - 1) ds)
         ++ "e" ++ (if (x10 <? 0)%Z then "-" else "+")
         ++ (if (Z.abs x10 <? 10)%Z then "0" else EmptyString)
         ++ str_of_Z (Z.abs x10))
  end.

(** The numbers added one after the other, from the left. *)
Definition sum_left (xs : list float64) : float64 :=
  fold_left f64_add xs f64_zero.

(** The pandas of the examples: ISO dates, correctly rounded amounts, sums
    from the left. *)
Definition pd_example : pandas :=
  mkPandas iso_parse_date no_offsets str_float64 nearest_float64
    sum_left sum_left.

Definition example_load_and_clean : frame -> result frame :=
  load_and_clean pd_example.

(** *** Frames *)

(** The scenario of the specification, with a location column and the index
    column a CSV export carries. *)
Definition scenario : frame :=
  [("Unnamed: 0", [whole 0; whole 1; whole 2]);
   ("Date", [Str "2024-01-01"; Str "2024-01-15"; Str "bad"]);
   ("Amount", [Str "CHF 100"; Str "200"; Str "5"]);
   ("Category", [Str "Food"; Str "Salary"; Str "X"]);
   ("Received / paid", [Str "Paid"; Str "Received"; Str "Paid"]);
   ("If shopped, where", [Str "Market"; NA; NA])].






(** Three payments of one month, of 0.1, 0.2 and 0.3, in two categories. *)
Definition tenths : frame :=
  [("Date", [Str "2024-01-01"; Str "2024-01-02"; Str "2024-01-03"]);
   ("Amount", [Str "0.1"; Str "0.2"; Str "0.3"]);
   ("Category", [Str "A"; Str "B"; Str "B"]);
   ("Received / paid", [Str "Paid"; Str "Paid"; Str "Paid"]);
   ("If shopped, where", [NA; NA; NA])].

(** A frame whose directions are codes, numbers, not words. *)
Definition coded_directions : frame :=
  [("Date", [Str "2024-01-01"; Str "2024-01-02"]);
   ("Amount", [Str "10"; Str "20"]);
   ("Category", [Str "Food"; Str "Rent"]);
   ("Received / paid", [whole 1; whole 2]);
   ("If shopped, where", [NA; NA])].

(** January 2024 with a record whose direction holds both words and one
    whose direction is missing. *)
Definition both_ways : frame :=
  [("Date", [Str "2024-01-01"; Str "2024-01-02"; Str "2024-01-03";
             Str "2024-01-04"]);
   ("Amount", [Str "100"; Str "200"; Str "7"; Str "3"]);
   ("Category", [Str "Food"; Str "Salary"; Str "Loan"; Str "Gift"]);
   ("Received / paid", [Str "paid"; Str "RECEIVED"; Str "Paid back, received";
                        NA]);
   ("If shopped, where", [NA; NA; NA; NA])].

Definition frame_or_empty (r : result frame) : frame :=
  match r with
  | Ok df => df
  | Raise _ => []
  end.

Definition scenario_clean : frame := frame_or_empty (example_load_and_clean scenario).




Definition tenths_clean : frame :=
  frame_or_empty (example_load_and_clean tenths).

Definition coded_directions_clean : frame :=
  frame_or_empty (example_load_and_clean coded_directions).

Definition both_ways_clean : frame :=
  frame_or_empty (example_load_and_clean both_ways).

Definition views_or_empty (r : result views) : views :=
  match r with
  | Ok v => v
  | Raise _ => mkViews f64_zero f64_zero f64_zero [] [] []
  end.


(** ** More of the page *)

(** The columns [load_and_clean] assigns. *)
Definition assigned_columns : list string :=
  ["Date"; "Amount_numeric"; "Month"; "Category"; "Received / paid";
   "If shopped, where"].

(** [trend] as the [groupby] leaves it, before it is sorted by month:
    [df.groupby(["Month", "Received / paid"], as_index=False)
    ["Amount_numeric"].sum()]. *)
Definition trend_groups (pd : pandas) (df : frame) : result frame :=
  groupby2_sum pd df "Month" "Received / paid" "Amount_numeric".

Fixpoint sum_counts (ns : list nat) : nat :=
  match ns with
  | [] => 0
  | n :: ns' => n + sum_counts ns'
  end.

(** Text in descending order, each item strictly below the one before. *)
Fixpoint strictly_descending (l : list string) : Prop :=
  match l with
  | [] => True
  | a :: t =>
      match t with
      | [] => True
      | b :: _ => String.ltb b a = true
      end /\ strictly_descending t
  end.

(** * Properties *)

(** ** Numbers: the sign of a sum *)










(** ** Frames *)

Lemma bind_Ok {A B} (m : result A) (f : A -> result B) (b : B) :
  bind m f = Ok b -> exists a, m = Ok a /\ f a = Ok b.
Proof.
  destruct m as [a|e]; simpl; intros H.
  - exists a. split; [reflexivity | exact H].
  - discriminate H.
Qed.

Lemma getitem_setitem (df : frame) (k k' : string) (v : column) :
  getitem (setitem df k v) k' =
  if String.eqb k k' then Ok v else getitem df k'.
Proof.
  induction df as [|[k0 col] rest IH]; simpl.
  - reflexivity.
  - destruct (String.eqb_spec k0 k) as [->|Hne]; simpl.
    + destruct (String.eqb k k'); reflexivity.
    + destruct (String.eqb_spec k0 k') as [->|Hne'].
      * destruct (String.eqb_spec k k') as [->|_]; [congruence | reflexivity].
      * exact IH.
Qed.

Lemma setitem_setitem (df : frame) (k : string) (v w : column) :
  setitem (setitem df k v) k w = setitem df k w.
Proof.
  induction df as [|[k0 col] rest IH]; simpl.
  - rewrite String.eqb_refl. reflexivity.
  - destruct (String.eqb k0 k) eqn:E; simpl; rewrite E.
    + reflexivity.
    + rewrite IH. reflexivity.
Qed.


Lemma getitem_frame_select (mask : list bool) (df : frame) (k : string) :
  getitem (frame_select mask df) k =
  match getitem df k with
  | Ok c => Ok (select mask c)
  | Raise e => Raise e
  end.
Proof.
  induction df as [|[k0 col] rest IH]; simpl.
  - reflexivity.
  - destruct (String.eqb k0 k); [reflexivity | exact IH].
Qed.

Lemma getitem_drop_unnamed (df : frame) (k : string) :
  startswith "Unnamed" k = false ->
  getitem (drop_unnamed df) k = getitem df k.
Proof.
  intros Hk. unfold drop_unnamed.
  induction df as [|[k0 col] rest IH]; [reflexivity|].
  cbn [filter fst]. destruct (startswith "Unnamed" k0) eqn:E; cbn [negb getitem].
  - destruct (String.eqb_spec k0 k) as [->|_]; [congruence | exact IH].
  - rewrite IH. reflexivity.
Qed.

Lemma column_names_setitem (df : frame) (k : string) (v : column) :
  forall x, In x (column_names (setitem df k v)) ->
            x = k \/ In x (column_names df).
Proof.
  unfold column_names.
  induction df as [|[k0 col] rest IH]; simpl; intros x H.
  - destruct H as [H|[]]. left. symmetry. exact H.
  - destruct (String.eqb k0 k); simpl in H.
    + right. exact H.
    + destruct H as [H|H]; [right; left; exact H|].
      destruct (IH x H) as [H'|H']; [left; exact H' | right; right; exact H'].
Qed.

Lemma column_names_frame_select (mask : list bool) (df : frame) :
  column_names (frame_select mask df) = column_names df.
Proof.
  unfold column_names, frame_select. rewrite map_map. reflexivity.
Qed.


Lemma column_names_drop_unnamed (df : frame) :
  forall x, In x (column_names (drop_unnamed df)) ->
            startswith "Unnamed" x = false.
Proof.
  unfold drop_unnamed, column_names. intros x H.
  apply in_map_iff in H. destruct H as [[k c] [<- H]].
  apply filter_In in H. destruct H as [_ H]. simpl in *.
  destruct (startswith "Unnamed" k); [discriminate H | reflexivity].
Qed.

Lemma fillna_map (v : cell) (f : cell -> cell) (col : column) :
  fillna v (map f col) = map (fun c => if isna (f c) then v else f c) col.
Proof.
  unfold fillna. rewrite map_map. reflexivity.
Qed.

(** ** Selection by a mask *)

Lemma select_map {A B} (f : A -> B) (mask : list bool) (xs : list A) :
  select mask (map f xs) = map f (select mask xs).
Proof.
  revert xs. induction mask as [|b mask IH]; intros [|x xs]; simpl;
    try reflexivity.
  destruct b; simpl; rewrite IH; reflexivity.
Qed.


Lemma select_none {A} {B} (q : B -> bool) (zs : list B) (xs : list A) :
  Forall (fun z => q z = false) zs -> select (map q zs) xs = [].
Proof.
  revert xs. induction zs as [|z zs IH]; intros xs Hall; simpl.
  - reflexivity.
  - destruct xs as [|x xs]; [reflexivity|].
    inversion Hall as [|? ? Hz Hzs]; subst. rewrite Hz. apply IH. exact Hzs.
Qed.

Lemma length_select_same {A B} (mask : list bool) (xs : list A) (ys : list B) :
  List.length xs = List.length ys ->
  List.length (select mask xs) = List.length (select mask ys).
Proof.
  revert xs ys. induction mask as [|b mask IH]; intros [|x xs] [|y ys] L;
    simpl in *; try reflexivity; try discriminate L.
  injection L as L. destruct b; simpl; rewrite (IH xs ys L); reflexivity.
Qed.

Lemma select_nil_r {A} (mask : list bool) : select mask (@nil A) = [].
Proof. destruct mask; reflexivity. Qed.

Lemma Forall_select {A} (P : A -> Prop) (mask : list bool) (xs : list A) :
  Forall P xs -> Forall P (select mask xs).
Proof.
  revert xs. induction mask as [|b mask IH]; intros [|x xs] H; simpl;
    try constructor.
  inversion H; subst. destruct b; [constructor|]; auto.
Qed.

Lemma select_self {A} (p : A -> bool) (xs : list A) :
  Forall (fun x => p x = true) (select (map p xs) xs).
Proof.
  induction xs as [|x xs IH]; simpl; [constructor|].
  destruct (p x) eqn:E; [constructor; assumption | assumption].
Qed.

Lemma length_select {A} (mask : list bool) (xs : list A) :
  List.length mask = List.length xs ->
  List.length (select mask xs) = count_true mask.
Proof.
  revert xs. induction mask as [|b mask IH]; intros [|x xs] H; simpl in *;
    try reflexivity; try discriminate.
  destruct b; simpl; rewrite IH; lia.
Qed.

Lemma getitem_has_column (df : frame) (k : string) :
  if has_column df k
  then exists c, getitem df k = Ok c
  else getitem df k = Raise (KeyError k).
Proof.
  unfold has_column, column_names.
  induction df as [|[k0 col] rest IH]; simpl; [reflexivity|].
  rewrite (String.eqb_sym k k0).
  destruct (String.eqb k0 k); simpl; [exists col; reflexivity | exact IH].
Qed.

Lemma getitem_Ok_has_column (df : frame) (k : string) (c : column) :
  getitem df k = Ok c -> has_column df k = true.
Proof.
  intros H. pose proof (getitem_has_column df k) as G.
  destruct (has_column df k); [reflexivity | congruence].
Qed.

(** ** Rectangular frames *)

Lemma rectangular_getitem (n : nat) (df : frame) (k : string) (c : column) :
  rectangular n df -> getitem df k = Ok c -> List.length c = n.
Proof.
  unfold rectangular.
  induction df as [|[k0 col] rest IH]; simpl; intros R H; [discriminate H|].
  pose proof (Forall_inv R) as R0. pose proof (Forall_inv_tail R) as R1.
  destruct (String.eqb k0 k); [injection H as <-; exact R0 | exact (IH R1 H)].
Qed.

Lemma rectangular_setitem (n : nat) (df : frame) (k : string) (v : column) :
  rectangular n df -> List.length v = n -> rectangular n (setitem df k v).
Proof.
  unfold rectangular.
  induction df as [|[k0 col] rest IH]; simpl; intros R H.
  - constructor; [exact H | constructor].
  - pose proof (Forall_inv R) as R0. pose proof (Forall_inv_tail R) as R1.
    destruct (String.eqb k0 k); constructor; auto.
Qed.

Lemma rectangular_drop_unnamed (n : nat) (df : frame) :
  rectangular n df -> rectangular n (drop_unnamed df).
Proof.
  unfold rectangular, drop_unnamed. intros R.
  apply Forall_forall. intros x Hx. apply filter_In in Hx.
  destruct Hx as [Hx _]. exact (proj1 (Forall_forall _ _) R x Hx).
Qed.

Lemma rectangular_frame_select (n : nat) (mask : list bool) (df : frame) :
  rectangular n df -> List.length mask = n ->
  rectangular (count_true mask) (frame_select mask df).
Proof.
  unfold rectangular, frame_select. intros R H.
  apply Forall_map. apply Forall_forall. intros [k c] Hx. simpl.
  apply length_select. rewrite H. symmetry.
  exact (proj1 (Forall_forall _ _) R (k, c) Hx).
Qed.



(** ** The normalizer, column by column *)

Section NormalizerFacts.

Variable pd : pandas.

Lemma load_and_clean_prepared (df : frame)
    (date amount category direction location : column) :
  getitem df "Date" = Ok date ->
  date_refused pd date = false ->
  getitem df "Amount" = Ok amount ->
  getitem df "Category" = Ok category ->
  getitem df "Received / paid" = Ok direction ->
  getitem df "If shopped, where" = Ok location ->
  load_and_clean pd df =
  Ok (frame_select (map notna (coerce_dates pd date))
        (prepared pd df date amount category direction location)).
Proof.
  intros Hd Hn Ha Hc Hr Hl. unfold load_and_clean, dropna_subset.
  rewrite getitem_drop_unnamed, Hd by reflexivity. cbn [bind].
  unfold to_datetime. rewrite Hn. cbn [bind].
  rewrite getitem_setitem. cbn [String.eqb Ascii.eqb Bool.eqb].
  rewrite getitem_drop_unnamed, Ha by reflexivity. cbn [bind].
  rewrite getitem_setitem, String.eqb_refl. cbn [bind].
  rewrite setitem_setitem.
  repeat (rewrite getitem_setitem; cbn [String.eqb Ascii.eqb Bool.eqb bind]).
  rewrite getitem_drop_unnamed, Hc by reflexivity. cbn [bind].
  repeat (rewrite getitem_setitem; cbn [String.eqb Ascii.eqb Bool.eqb bind]).
  rewrite getitem_drop_unnamed, Hr by reflexivity. cbn [bind].
  repeat (rewrite getitem_setitem; cbn [String.eqb Ascii.eqb Bool.eqb bind]).
  rewrite getitem_drop_unnamed, Hl by reflexivity. cbn [bind].
  repeat (rewrite getitem_setitem; cbn [String.eqb Ascii.eqb Bool.eqb bind]).
  unfold prepared, amount_cell, astype_str_cell.
  rewrite !map_map, fillna_map. reflexivity.
Qed.

Lemma load_and_clean_cases (df : frame) :
  load_and_clean pd df = load_and_clean_outcome pd df.
Proof.
  unfold load_and_clean_outcome.
  destruct (getitem df "Date") as [date|e] eqn:Hd.
  2:{ unfold load_and_clean.
      rewrite getitem_drop_unnamed, Hd by reflexivity. reflexivity. }
  destruct (date_refused pd date) eqn:Hn.
  { unfold load_and_clean.
    rewrite getitem_drop_unnamed, Hd by reflexivity. cbn [bind].
    unfold to_datetime. rewrite Hn. reflexivity. }
  destruct (getitem df "Amount") as [amount|e] eqn:Ha.
  2:{ unfold load_and_clean.
      rewrite getitem_drop_unnamed, Hd by reflexivity. cbn [bind].
      unfold to_datetime. rewrite Hn. cbn [bind].
      rewrite getitem_setitem. cbn [String.eqb Ascii.eqb Bool.eqb].
      rewrite getitem_drop_unnamed, Ha by reflexivity. reflexivity. }
  destruct (getitem df "Category") as [category|e] eqn:Hc.
  2:{ unfold load_and_clean.
      rewrite getitem_drop_unnamed, Hd by reflexivity. cbn [bind].
      unfold to_datetime. rewrite Hn. cbn [bind].
      rewrite getitem_setitem. cbn [String.eqb Ascii.eqb Bool.eqb].
      rewrite getitem_drop_unnamed, Ha by reflexivity. cbn [bind].
      repeat (rewrite getitem_setitem; cbn [String.eqb Ascii.eqb Bool.eqb bind]).
      rewrite getitem_drop_unnamed, Hc by reflexivity. reflexivity. }
  destruct (getitem df "Received / paid") as [direction|e] eqn:Hr.
  2:{ unfold load_and_clean.
      rewrite getitem_drop_unnamed, Hd by reflexivity. cbn [bind].
      unfold to_datetime. rewrite Hn. cbn [bind].
      rewrite getitem_setitem. cbn [String.eqb Ascii.eqb Bool.eqb].
      rewrite getitem_drop_unnamed, Ha by reflexivity. cbn [bind].
      repeat (rewrite getitem_setitem; cbn [String.eqb Ascii.eqb Bool.eqb bind]).
      rewrite getitem_drop_unnamed, Hc by reflexivity. cbn [bind].
      repeat (rewrite getitem_setitem; cbn [String.eqb Ascii.eqb Bool.eqb bind]).
      rewrite getitem_drop_unnamed, Hr by reflexivity. reflexivity. }
  destruct (getitem df "If shopped, where") as [location|e] eqn:Hl.
  2:{ unfold load_and_clean.
      rewrite getitem_drop_unnamed, Hd by reflexivity. cbn [bind].
      unfold to_datetime. rewrite Hn. cbn [bind].
      rewrite getitem_setitem. cbn [String.eqb Ascii.eqb Bool.eqb].
      rewrite getitem_drop_unnamed, Ha by reflexivity. cbn [bind].
      repeat (rewrite getitem_setitem; cbn [String.eqb Ascii.eqb Bool.eqb bind]).
      rewrite getitem_drop_unnamed, Hc by reflexivity. cbn [bind].
      repeat (rewrite getitem_setitem; cbn [String.eqb Ascii.eqb Bool.eqb bind]).
      rewrite getitem_drop_unnamed, Hr by reflexivity. cbn [bind].
      repeat (rewrite getitem_setitem; cbn [String.eqb Ascii.eqb Bool.eqb bind]).
      rewrite getitem_drop_unnamed, Hl by reflexivity. reflexivity. }
  apply load_and_clean_prepared; assumption.
Qed.

Lemma load_and_clean_Ok (df out : frame) :
  load_and_clean pd df = Ok out ->
  exists date amount category direction location,
    getitem df "Date" = Ok date /\
    getitem df "Amount" = Ok amount /\
    getitem df "Category" = Ok category /\
    getitem df "Received / paid" = Ok direction /\
    getitem df "If shopped, where" = Ok location /\
    out = frame_select (map notna (coerce_dates pd date))
            (prepared pd df date amount category direction location).
Proof.
  rewrite load_and_clean_cases. unfold load_and_clean_outcome. intros H.
  destruct (getitem df "Date") as [date|]; [|discriminate H].
  destruct (date_refused pd date); [discriminate H|].
  destruct (getitem df "Amount") as [amount|]; [|discriminate H].
  destruct (getitem df "Category") as [category|]; [|discriminate H].
  destruct (getitem df "Received / paid") as [direction|]; [|discriminate H].
  destruct (getitem df "If shopped, where") as [location|]; [|discriminate H].
  exists date, amount, category, direction, location.
  repeat split. congruence.
Qed.

Ltac lookup :=
  repeat (rewrite getitem_setitem; cbn [String.eqb Ascii.eqb Bool.eqb]).

Lemma prepared_Date (df : frame)
    (date amount category direction location : column) :
  getitem (prepared pd df date amount category direction
             location) "Date" = Ok (coerce_dates pd date).
Proof. unfold prepared. lookup. reflexivity. Qed.

Lemma prepared_Amount (df : frame)
    (date amount category direction location : column) :
  getitem df "Amount" = Ok amount ->
  getitem (prepared pd df date amount category direction
             location) "Amount" = Ok amount.
Proof.
  intros H. unfold prepared. lookup.
  rewrite getitem_drop_unnamed by reflexivity. exact H.
Qed.

Lemma prepared_Amount_numeric (df : frame)
    (date amount category direction location : column) :
  getitem (prepared pd df date amount category direction
             location) "Amount_numeric" =
  Ok (map (amount_cell pd) amount).
Proof. unfold prepared. lookup. reflexivity. Qed.

Lemma prepared_Month (df : frame)
    (date amount category direction location : column) :
  getitem (prepared pd df date amount category direction
             location) "Month" =
  Ok (map dt_strftime_Ym (coerce_dates pd date)).
Proof. unfold prepared. lookup. reflexivity. Qed.

Lemma prepared_Category (df : frame)
    (date amount category direction location : column) :
  getitem (prepared pd df date amount category direction
             location) "Category" =
  Ok (fillna (Str "Uncategorized") category).
Proof. unfold prepared. lookup. reflexivity. Qed.

Lemma prepared_direction (df : frame)
    (date amount category direction location : column) :
  getitem (prepared pd df date amount category direction
             location) "Received / paid" =
  Ok (fillna (Str "Unknown") direction).
Proof. unfold prepared. lookup. reflexivity. Qed.

Lemma prepared_location (df : frame)
    (date amount category direction location : column) :
  getitem (prepared pd df date amount category direction
             location) "If shopped, where" =
  Ok (fillna (Str EmptyString) location).
Proof. unfold prepared. lookup. reflexivity. Qed.

Lemma prepared_rectangular (n : nat) (df : frame)
    (date amount category direction location : column) :
  rectangular n df ->
  List.length date = n -> List.length amount = n ->
  List.length category = n -> List.length direction = n ->
  List.length location = n ->
  rectangular n (prepared pd df date amount category
                   direction location).
Proof.
  intros R Hd Ha Hc Hr Hl. unfold prepared, coerce_dates, fillna.
  repeat apply rectangular_setitem; rewrite ?length_map; auto.
  apply rectangular_drop_unnamed. exact R.
Qed.

Lemma prepared_names (df : frame)
    (date amount category direction location : column) :
  forall x,
    In x (column_names (prepared pd df date amount category
                          direction location)) ->
    startswith "Unnamed" x = false.
Proof.
  intros x H. unfold prepared in H.
  repeat (apply column_names_setitem in H; destruct H as [->|H];
          [reflexivity|]).
  exact (column_names_drop_unnamed df x H).
Qed.

Lemma to_datetime_cell_kind (col : column) (c : cell) :
  to_datetime_cell pd col c = NA \/
  is_timestamp (to_datetime_cell pd col c).
Proof.
  unfold is_timestamp.
  destruct c as [|s|q|t]; simpl; eauto;
    destruct (parse_date pd col _); eauto.
Qed.

Lemma kept_dates_are_timestamps (date : column) :
  Forall is_timestamp
    (select (map notna (coerce_dates pd date))
       (coerce_dates pd date)).
Proof.
  pose proof (select_self notna (coerce_dates pd date)) as K.
  apply Forall_forall. intros c Hc.
  pose proof (proj1 (Forall_forall _ _) K c Hc) as Hn.
  assert (In c (coerce_dates pd date)) as Hin.
  { assert (Forall (fun c => In c (coerce_dates pd date))
              (coerce_dates pd date)) as F
      by (apply Forall_forall; auto).
    exact (proj1 (Forall_forall _ _)
             (Forall_select _ (map notna (coerce_dates pd date)) _ F)
             c Hc). }
  unfold coerce_dates in Hin at 1. apply in_map_iff in Hin.
  destruct Hin as [c0 [<- _]].
  destruct (to_datetime_cell_kind date c0) as [E|E]; [|exact E].
  rewrite E in Hn. discriminate Hn.
Qed.







End NormalizerFacts.
(** ** Numerals and prefixes of text *)

Lemma string_app_assoc (a b c : string) : (a ++ b) ++ c = a ++ (b ++ c).
Proof.
  induction a as [|x a IH]; simpl; [reflexivity | rewrite IH; reflexivity].
Qed.







(** ** The normalizer: what it keeps, fills and derives *)

Section NormalizerClaims.

Variable pd : pandas.





Lemma project_cols (df : frame) (date category amount direction location : column) :
  getitem df "Date" = Ok date ->
  getitem df "Category" = Ok category ->
  getitem df "Amount" = Ok amount ->
  getitem df "Received / paid" = Ok direction ->
  getitem df "If shopped, where" = Ok location ->
  month_df_display df =
  Ok [("Date", datetime_astype_str date); ("Category", category);
      ("Amount", amount); ("Received / paid", direction);
      ("If shopped, where", location)].
Proof.
  intros Hd Hc Ha Hr Hl. unfold month_df_display, cols, project.
  rewrite Hd, Hc, Ha, Hr, Hl. reflexivity.
Qed.

(** C10: [load_and_clean] leaves the text of the [Amount] column as it was:
    the output holds, for the rows kept, the very cells of the input, the
    parsed value living in [Amount_numeric].  The detail table of any month
    shows these original cells and has no [Amount_numeric] column. *)
Theorem amount_column_is_untouched (df out : frame) :
  load_and_clean pd df = Ok out ->
  exists date amount,
    getitem df "Date" = Ok date /\
    getitem df "Amount" = Ok amount /\
    let keep := map notna (coerce_dates pd date) in
    getitem out "Amount" = Ok (select keep amount) /\
    forall selected_month,
    exists months mdf detail,
      getitem out "Month" = Ok months /\
      month_df out selected_month = Ok mdf /\
      month_df_display mdf = Ok detail /\
      getitem detail "Amount" =
        Ok (select (map (elem_eq selected_month) months) (select keep amount)) /\
      getitem detail "Amount_numeric" = Raise (KeyError "Amount_numeric").
Proof.
  intros H.
  destruct (load_and_clean_Ok pd df out H)
    as (date & amount & category & direction & location
        & Hd & Ha & Hc & Hr & Hl & ->).
  exists date, amount. repeat (split; [assumption|]). cbv zeta.
  set (keep := map notna (coerce_dates pd date)).
  set (P := prepared pd df date amount category direction
              location).
  assert (getitem (frame_select keep P) "Amount" = Ok (select keep amount))
    as HA.
  { rewrite getitem_frame_select. unfold P.
    rewrite (prepared_Amount pd df _ _ _ _ _ Ha).
    reflexivity. }
  split; [exact HA|].
  set (months := select keep (map dt_strftime_Ym (coerce_dates pd date))).
  assert (getitem (frame_select keep P) "Month" = Ok months) as HM.
  { rewrite getitem_frame_select. unfold P. rewrite prepared_Month.
    reflexivity. }
  intros selected_month. unfold month_df. rewrite HM. cbn [bind].
  set (in_month := map (elem_eq selected_month) months).
  exists months. eexists. eexists.
  split; [reflexivity|]. split; [reflexivity|].
  rewrite (project_cols (frame_select in_month (frame_select keep P))
             (select in_month (select keep (coerce_dates pd date)))
             (select in_month
                (select keep (fillna (Str "Uncategorized") category)))
             (select in_month (select keep amount))
             (select in_month (select keep (fillna (Str "Unknown") direction)))
             (select in_month
                (select keep (fillna (Str EmptyString) location)))).
  - repeat split.
  - rewrite !getitem_frame_select. unfold P. rewrite prepared_Date.
    reflexivity.
  - rewrite !getitem_frame_select. unfold P. rewrite prepared_Category.
    reflexivity.
  - rewrite getitem_frame_select, HA. reflexivity.
  - rewrite !getitem_frame_select. unfold P. rewrite prepared_direction.
    reflexivity.
  - rewrite !getitem_frame_select. unfold P. rewrite prepared_location.
    reflexivity.
Qed.



End NormalizerClaims.
(** ** Keys: equality, distinct values, sorting *)

Lemma timestamp_eqb_eq (a b : timestamp) :
  timestamp_eqb a b = true <-> a = b.
Proof.
  unfold timestamp_eqb. destruct a, b; simpl. split.
  - intros H. repeat (apply andb_prop in H; destruct H as [H ?]).
    repeat match goal with E : (_ =? _) = true |- _ =>
      apply Nat.eqb_eq in E end.
    congruence.
  - intros H. injection H as -> -> -> -> -> ->.
    rewrite !Nat.eqb_refl. reflexivity.
Qed.

Lemma f64_eqb_eq (x y : float64) : f64_eqb x y = true <-> x = y.
Proof.
  destruct x as [s|s| |s m e], y as [s'|s'| |s' m' e']; simpl;
    try (split; [discriminate | congruence]);
    try (rewrite Bool.eqb_true_iff; split; congruence).
  - split; reflexivity.
  - rewrite !andb_true_iff, Bool.eqb_true_iff, Pos.eqb_eq, Z.eqb_eq.
    split; [intros [[-> ->] ->]; reflexivity | intros E; injection E; auto].
Qed.

Lemma cell_eqb_eq (a b : cell) : cell_eqb a b = true <-> a = b.
Proof.
  destruct a as [|s|p|t], b as [|s'|q|u]; simpl;
    try (split; [discriminate | congruence]).
  - split; reflexivity.
  - rewrite String.eqb_eq. split; congruence.
  - rewrite f64_eqb_eq. split; congruence.
  - rewrite timestamp_eqb_eq. split; congruence.
Qed.

Lemma cell_eqb_refl (a : cell) : cell_eqb a a = true.
Proof. apply cell_eqb_eq. reflexivity. Qed.

Lemma cell_eqb_sym (a b : cell) : cell_eqb a b = cell_eqb b a.
Proof.
  destruct (cell_eqb a b) eqn:E.
  - apply cell_eqb_eq in E. subst. symmetry. apply cell_eqb_refl.
  - destruct (cell_eqb b a) eqn:E'; [|reflexivity].
    apply cell_eqb_eq in E'. subst. rewrite cell_eqb_refl in E.
    discriminate E.
Qed.

Section KeyFacts.

Context {K : Type}.
Variable eqb : K -> K -> bool.
Hypothesis eqb_eq : forall a b, eqb a b = true <-> a = b.

Lemma In_unique (x : K) (l : list K) : In x (unique eqb l) <-> In x l.
Proof.
  induction l as [|a l IH]; simpl; [tauto|].
  rewrite filter_In, IH. split.
  - intros [H|[H _]]; auto.
  - intros [H|H]; [left; exact H|].
    destruct (eqb a x) eqn:E.
    + left. apply eqb_eq. exact E.
    + right. split; [exact H | reflexivity].
Qed.

Lemma NoDup_unique (l : list K) : NoDup (unique eqb l).
Proof.
  induction l as [|a l IH]; simpl; constructor.
  - rewrite filter_In. intros [_ H].
    rewrite (proj2 (eqb_eq a a) eq_refl) in H. discriminate H.
  - apply NoDup_filter. exact IH.
Qed.

Variable leb : K -> K -> bool.

Lemma insert_sorted_perm (x : K) (l : list K) :
  Permutation (insert_sorted leb x l) (x :: l).
Proof.
  induction l as [|y l IH]; simpl; [reflexivity|].
  destruct (leb x y); [reflexivity|].
  rewrite IH. apply perm_swap.
Qed.

Lemma sort_perm (l : list K) : Permutation (sort leb l) l.
Proof.
  induction l as [|x l IH]; simpl; [reflexivity|].
  rewrite insert_sorted_perm. constructor. exact IH.
Qed.

End KeyFacts.

(** ** Text: parts and prefixes *)

Lemma substring_0_0 (s : string) : substring 0 0 s = EmptyString.
Proof. destruct s; reflexivity. Qed.

Lemma prefix_app (a s : string) :
  prefix a s = true <-> exists b, s = a ++ b.
Proof.
  revert s. induction a as [|x a IH]; intros s; simpl.
  - destruct s; split; eauto.
  - destruct s as [|y s]; simpl.
    + split; [discriminate | intros [b E]; discriminate E].
    + destruct (Ascii.ascii_dec x y) as [->|N].
      * rewrite IH. split; intros [b E]; exists b; congruence.
      * split; [discriminate | intros [b E]; congruence].
Qed.

Lemma str_filter_app (p : ascii -> bool) (a b : string) :
  str_filter p (a ++ b) = str_filter p a ++ str_filter p b.
Proof.
  induction a as [|x a IH]; simpl; [reflexivity|].
  destruct (p x); simpl; rewrite IH; reflexivity.
Qed.

(** Deleting the occurrences of a word none of whose characters passes the
    filter does not change what the filter keeps. *)
Lemma str_filter_remove_from (p : ascii -> bool) (pat : string) :
  str_filter p pat = EmptyString ->
  forall s skip,
    str_filter p (substring 0 skip s) = EmptyString ->
    str_filter p (str_remove_from pat skip s) = str_filter p s.
Proof.
  intros Hpat s. induction s as [|c t IH]; intros skip Hs; [reflexivity|].
  assert (str_filter p (substring 0 0 t) = EmptyString) as Z
    by (rewrite substring_0_0; reflexivity).
  destruct skip as [|k].
  - cbn [str_remove_from]. destruct pat as [|c0 pat'].
    + cbn [String.length Nat.eqb negb andb str_filter].
      rewrite (IH 0 Z). reflexivity.
    + cbn [String.length Nat.eqb negb andb Nat.sub].
      destruct (prefix (String c0 pat') (String c t)) eqn:E.
      * apply prefix_app in E. destruct E as [b E].
        simpl in E. injection E as -> ->.
        simpl in Hpat. destruct (p c0) eqn:Pc; [discriminate Hpat|].
        rewrite Nat.sub_0_r. rewrite IH.
        -- simpl. rewrite Pc. reflexivity.
        -- rewrite (proj1 (prefix_correct pat' (pat' ++ b))).
           ++ exact Hpat.
           ++ apply prefix_app. exists b. reflexivity.
      * simpl. rewrite (IH 0 Z). reflexivity.
  - simpl in Hs. destruct (p c) eqn:Pc; [discriminate Hs|].
    simpl. rewrite Pc. apply IH. exact Hs.
Qed.

Lemma filter_after_remove_CHF (s : string) :
  str_filter is_numeric_char (str_remove "CHF" s) =
  str_filter is_numeric_char s.
Proof.
  unfold str_remove. apply str_filter_remove_from; [reflexivity|].
  rewrite substring_0_0. reflexivity.
Qed.

Lemma contains_app (pat s : string) :
  contains pat s = true <-> exists a b, s = a ++ pat ++ b.
Proof.
  induction s as [|c t IH].
  - cbn [contains]. rewrite orb_false_r, prefix_app. split.
    + intros [b E]. exists EmptyString, b. exact E.
    + intros [a [b E]]. destruct a; [exists b; exact E | discriminate E].
  - cbn [contains]. rewrite orb_true_iff, prefix_app, IH. split.
    + intros [[b E]|[a [b E]]].
      * exists EmptyString, b. exact E.
      * exists (String c a), b. rewrite E. reflexivity.
    + intros [a [b E]]. destruct a as [|x a].
      * left. exists b. exact E.
      * right. exists a, b. simpl in E. congruence.
Qed.



Lemma cell_contains_nocase_mentions (pat : string) (c : cell) :
  cell_contains_nocase pat c = true <-> mentions pat c.
Proof.
  unfold mentions.
  destruct c as [|s|q|t]; cbn [cell_contains_nocase];
    try (split; [discriminate | intros (s & a & b & E & _); discriminate E]).
  unfold contains_nocase. rewrite contains_app. split.
  - intros [a [b E]]. exists s, a, b. split; [reflexivity | exact E].
  - intros (s' & a & b & E & H). injection E as <-. exists a, b. exact H.
Qed.

(** ** The accessor [.str] *)

Lemma str_accessor_Ok (d : dtype) (col texts : column) :
  str_accessor d col = Ok texts -> texts = col.
Proof.
  unfold str_accessor. destruct d; [discriminate|].
  destruct (_ && _); [discriminate | congruence].
Qed.

Lemma str_accessor_text (col : column) :
  Forall (fun c => is_text c = true) col ->
  str_accessor object_dtype col = Ok col.
Proof.
  intros H. unfold str_accessor. destruct H as [|c l Hc _]; [reflexivity|].
  destruct c; try discriminate Hc. reflexivity.
Qed.

Lemma fillna_text (s : string) (col : column) :
  Forall text_or_missing col ->
  Forall (fun c => is_text c = true) (fillna (Str s) col).
Proof.
  intros H. unfold fillna. apply Forall_map.
  induction H as [|c l [Hc| ->] _ IH]; constructor; try exact IH.
  - destruct c; try discriminate Hc. reflexivity.
  - reflexivity.
Qed.

Lemma text_direction_dtype (rd : column) :
  Forall text_or_missing rd -> direction_dtype rd = object_dtype.
Proof.
  intros H. unfold direction_dtype. destruct H as [|c l Hc _]; [reflexivity|].
  assert (is_num c = false) as E
    by (destruct Hc as [Hc| ->]; [destruct c; try discriminate Hc|];
        reflexivity).
  cbn [forallb]. rewrite E. reflexivity.
Qed.

(** ** Rows and masks *)

Lemma combine_nil_r {A B} (l : list A) : combine l (@nil B) = [].
Proof. destruct l; reflexivity. Qed.

Lemma select_combine {A B} (mask : list bool) (a : list A) (b : list B) :
  combine (select mask a) (select mask b) = select mask (combine a b).
Proof.
  revert a b. induction mask as [|x mask IH]; intros [|u a] [|v b];
    simpl; try reflexivity.
  - destruct x; apply combine_nil_r.
  - destruct x; simpl; rewrite IH; reflexivity.
Qed.

Lemma select_record_rows (mask : list bool) (month direction amounts : column) :
  record_rows (select mask month) (select mask direction)
    (select mask amounts) =
  select mask (record_rows month direction amounts).
Proof.
  unfold record_rows. rewrite !select_combine. reflexivity.
Qed.

Lemma select_by_key {A B} (f : A -> bool) (a : list A) (b : list B) :
  select (map f a) (combine a b) = filter (fun r => f (fst r)) (combine a b).
Proof.
  revert b. induction a as [|x a IH]; intros [|y b]; simpl; try reflexivity.
  destruct (f x); rewrite IH; reflexivity.
Qed.


Lemma marks_In {A} (P : A -> Prop) (rows : list A) (mask : list bool) :
  marks P rows mask ->
  forall r, In r (select mask rows) <-> In r rows /\ P r.
Proof.
  induction 1 as [|a b rows mask Hb _ IH]; intros r; simpl; [tauto|].
  destruct b; simpl; rewrite IH.
  - split.
    + intros [<-|[Hin Hp]]; [split; [left; reflexivity | apply Hb; reflexivity]|].
      split; [right; exact Hin | exact Hp].
    + intros [[<-|Hin] Hp]; [left; reflexivity | right; split; assumption].
  - split.
    + intros [Hin Hp]. split; [right; exact Hin | exact Hp].
    + intros [[<-|Hin] Hp]; [|split; assumption].
      apply Hb in Hp. discriminate Hp.
Qed.

Lemma elem_eq_iff (m c : cell) : elem_eq m c = true <-> c = m /\ m <> NA.
Proof.
  unfold elem_eq. rewrite andb_true_iff, cell_eqb_eq. split.
  - intros [Hn <-]. split; [reflexivity|]. intros ->. discriminate Hn.
  - intros [-> Hm]. split; [|reflexivity].
    destruct m; try reflexivity. contradiction.
Qed.

Lemma matching_rows_marks (pat : string) (m : cell)
    (rows : list (cell * (cell * cell))) :
  marks (counted pat m) rows (matching_rows pat m rows).
Proof.
  unfold marks, matching_rows.
  induction rows as [|r rows IH]; simpl; constructor; [|exact IH].
  unfold classified, counted.
  rewrite andb_true_iff, elem_eq_iff, cell_contains_nocase_mentions. tauto.
Qed.

(** The amounts of the rows a month and a pattern select, column-wise as
    the code takes them and row-wise as the specification words it. *)
Lemma select_twice_rows (pat : string) (m : cell)
    (month direction amounts : column) :
  select (map (cell_contains_nocase pat)
            (select (map (elem_eq m) month) direction))
    (select (map (elem_eq m) month) amounts) =
  map row_amount_cell
    (select (matching_rows pat m (record_rows month direction amounts))
       (record_rows month direction amounts)).
Proof.
  unfold matching_rows, record_rows.
  revert direction amounts.
  induction month as [|x month IH]; intros direction amounts.
  - reflexivity.
  - destruct direction as [|d direction]; [reflexivity|].
    destruct amounts as [|a amounts];
      [rewrite !select_nil_r; reflexivity|].
    cbn [map select combine].
    unfold row_month at 1, classified at 1, row_direction at 1. cbn [fst snd].
    destruct (elem_eq m x); cbn [andb map select].
    + destruct (cell_contains_nocase pat d).
      * cbn [map]. rewrite IH. reflexivity.
      * apply IH.
    + apply IH.
Qed.


(** ** The views of a frame that has the columns of a cleaned one *)

Section Views.

Variable pd : pandas.

Lemma total_matching_frame (d : dtype) (pat : string) (mdf : frame)
    (direction amounts : column) :
  getitem mdf "Received / paid" = Ok direction ->
  getitem mdf "Amount_numeric" = Ok amounts ->
  total_matching pd d pat mdf =
  match str_accessor d direction with
  | Ok _ =>
      Ok (col_sum pd (select (map (cell_contains_nocase pat) direction) amounts))
  | Raise e => Raise e
  end.
Proof.
  intros Hr Hn. unfold total_matching, str_contains_nocase.
  rewrite Hr. cbn [bind].
  destruct (str_accessor d direction) as [texts|e] eqn:E; [|reflexivity].
  apply str_accessor_Ok in E. subst texts. cbn [bind].
  rewrite getitem_frame_select, Hn. reflexivity.
Qed.

Lemma dashboard_views (d : dtype) (df : frame) (m : cell)
    (date amount category direction location amounts month : column) :
  getitem df "Date" = Ok date ->
  getitem df "Amount" = Ok amount ->
  getitem df "Category" = Ok category ->
  getitem df "Received / paid" = Ok direction ->
  getitem df "If shopped, where" = Ok location ->
  getitem df "Amount_numeric" = Ok amounts ->
  getitem df "Month" = Ok month ->
  let in_month := map (elem_eq m) month in
  let total pat :=
    col_sum pd
      (select (map (cell_contains_nocase pat) (select in_month direction))
         (select in_month amounts)) in
  dashboard pd d df m =
  match str_accessor d (select in_month direction) with
  | Raise e => Raise e
  | Ok _ =>
      Ok (mkViews
            (total "Paid") (total "Received")
            (net (total "Received") (total "Paid"))
            (group_sums pd "Category" "Amount_numeric"
               (select in_month category) (select in_month amounts))
            (group2_sums pd "Category" "Received / paid" "Amount_numeric"
               (select in_month category) (select in_month direction)
               (select in_month amounts))
            [("Date", datetime_astype_str (select in_month date));
             ("Category", select in_month category);
             ("Amount", select in_month amount);
             ("Received / paid", select in_month direction);
             ("If shopped, where", select in_month location)])
  end.
Proof.
  intros Hd Ha Hc Hr Hl Hn Hm in_month total.
  unfold dashboard, month_df. rewrite Hm. cbn [bind].
  fold in_month. unfold paid_total, received_total.
  rewrite !(total_matching_frame d _ (frame_select in_month df)
              (select in_month direction) (select in_month amounts))
    by (rewrite getitem_frame_select; rewrite ?Hr, ?Hn; reflexivity).
  destruct (str_accessor d (select in_month direction)) as [texts|e];
    [|reflexivity].
  cbn [bind]. fold (total "Paid"). fold (total "Received").
  unfold cat_sum, cat_type, groupby_sum, groupby2_sum.
  rewrite !getitem_frame_select, Hc, Hn, Hr. cbn [bind].
  rewrite (project_cols (frame_select in_month df)
             (select in_month date) (select in_month category)
             (select in_month amount) (select in_month direction)
             (select in_month location));
    try (rewrite getitem_frame_select;
         first [rewrite Hd | rewrite Hc | rewrite Ha | rewrite Hr | rewrite Hl];
         reflexivity).
  reflexivity.
Qed.


End Views.

Lemma month_list_members (df : frame) (month : column) :
  getitem df "Month" = Ok month ->
  exists months,
    month_list df = Ok months /\ forall m, In m months <-> In m month.
Proof.
  intros H. unfold month_list. rewrite H. cbn [bind].
  eexists. split; [reflexivity|]. intros m.
  rewrite <- (In_unique cell_eqb cell_eqb_eq m month). split.
  - apply Permutation_in. apply sort_perm.
  - apply Permutation_in. symmetry. apply sort_perm.
Qed.

(** ** The aggregator on cleaned frames *)

Section AggregatorClaims.

Variable pd : pandas.

Lemma clean_columns (raw out : frame) :
  load_and_clean pd raw = Ok out ->
  exists date amount category direction location,
    getitem raw "Date" = Ok date /\
    getitem raw "Amount" = Ok amount /\
    getitem raw "Category" = Ok category /\
    getitem raw "Received / paid" = Ok direction /\
    getitem raw "If shopped, where" = Ok location /\
    let parsed := coerce_dates pd date in
    let keep := map notna parsed in
    getitem out "Date" = Ok (select keep parsed) /\
    getitem out "Amount" = Ok (select keep amount) /\
    getitem out "Category" =
      Ok (select keep (fillna (Str "Uncategorized") category)) /\
    getitem out "Received / paid" =
      Ok (select keep (fillna (Str "Unknown") direction)) /\
    getitem out "If shopped, where" =
      Ok (select keep (fillna (Str EmptyString) location)) /\
    getitem out "Amount_numeric" =
      Ok (select keep (map (amount_cell pd) amount)) /\
    getitem out "Month" = Ok (select keep (map dt_strftime_Ym parsed)).
Proof.
  intros H.
  destruct (load_and_clean_Ok pd raw out H)
    as (date & amount & category & direction & location
        & Hd & Ha & Hc & Hr & Hl & ->).
  exists date, amount, category, direction, location.
  repeat (split; [assumption|]). cbv zeta.
  rewrite !getitem_frame_select.
  rewrite prepared_Date, (prepared_Amount pd raw _ _ _ _ _ Ha),
    prepared_Category, prepared_direction, prepared_location,
    prepared_Amount_numeric, prepared_Month.
  repeat split.
Qed.

(** The direction column of a frame cleaned from text: text in every row,
    and so in the rows of any month. *)
Lemma clean_direction_text (raw out : frame) (rd direction : column)
    (mask : list bool) :
  load_and_clean pd raw = Ok out ->
  getitem raw "Received / paid" = Ok rd ->
  getitem out "Received / paid" = Ok direction ->
  Forall text_or_missing rd ->
  str_accessor (direction_dtype rd) (select mask direction) =
  Ok (select mask direction).
Proof.
  intros H Hrd Hr T.
  destruct (clean_columns raw out H)
    as (date & amount & category & direction' & location
        & _ & _ & _ & Hr' & _ & _ & _ & _ & Or & _).
  assert (direction' = rd) as -> by congruence.
  cbv zeta in Or. rewrite Or in Hr. injection Hr as <-.
  rewrite (text_direction_dtype rd T).
  apply str_accessor_text. do 2 apply Forall_select.
  apply fillna_text. exact T.
Qed.

(** C3: for a cleaned frame and any selected month, whenever the page is
    computed, as it is when the directions of the input are text or
    missing, [paid_total] is the sum of the amounts of the records of that
    month whose direction has "Paid" as a part, the case of the letters
    left aside, [received_total] is the same for "Received", and the net is
    their difference.  A record whose direction has both words is counted
    in both sums; one whose direction has neither is counted in neither and
    is still a record of the month's frame.  So "PAID in full" and "unpaid"
    count as paid, "Pay day" and a missing direction do not, and
    "Paid back, received" counts as both: the frame with 100 paid, 200
    received, 7 paid back and received, and 3 without direction has 107
    paid, 207 received and a net of 100. *)
Theorem overview_totals_by_direction :
  (forall (raw out : frame) (rd : column) (m : cell),
     load_and_clean pd raw = Ok out ->
     getitem raw "Received / paid" = Ok rd ->
     exists month direction amounts,
       getitem out "Month" = Ok month /\
       getitem out "Received / paid" = Ok direction /\
       getitem out "Amount_numeric" = Ok amounts /\
       let rows := record_rows month direction amounts in
       (Forall text_or_missing rd ->
        exists v, dashboard pd (direction_dtype rd) out m = Ok v) /\
       (forall v,
          dashboard pd (direction_dtype rd) out m = Ok v ->
          exists paid received,
            marks (counted "Paid" m) rows paid /\
            marks (counted "Received" m) rows received /\
            v_paid_total v =
              col_sum pd (map row_amount_cell (select paid rows)) /\
            v_received_total v =
              col_sum pd (map row_amount_cell (select received rows)) /\
            v_net v = f64_sub (v_received_total v) (v_paid_total v) /\
            (forall r,
               In r rows -> counted "Paid" m r -> counted "Received" m r ->
               In r (select paid rows) /\ In r (select received rows)) /\
            (forall r,
               In r rows -> row_month r = m -> m <> NA ->
               ~ mentions "Paid" (row_direction r) ->
               ~ mentions "Received" (row_direction r) ->
               ~ In r (select paid rows) /\ ~ In r (select received rows) /\
               exists mdf mmonth mdirection mamounts,
                 month_df out m = Ok mdf /\
                 getitem mdf "Month" = Ok mmonth /\
                 getitem mdf "Received / paid" = Ok mdirection /\
                 getitem mdf "Amount_numeric" = Ok mamounts /\
                 In r (record_rows mmonth mdirection mamounts)))) /\
  mentions "Paid" (Str "PAID in full") /\
  mentions "Paid" (Str "unpaid") /\
  ~ mentions "Paid" (Str "Pay day") /\
  ~ mentions "Paid" NA /\
  mentions "Paid" (Str "Paid back, received") /\
  mentions "Received" (Str "Paid back, received") /\
  exists out v,
    load_and_clean pd_example both_ways = Ok out /\
    dashboard pd_example object_dtype out (Str "2024-01") = Ok v /\
    v_paid_total v = f64_of_Z 107 /\
    v_received_total v = f64_of_Z 207 /\
    v_net v = f64_of_Z 100.
Proof.
  split.
  2:{ repeat (split; [first
        [ apply cell_contains_nocase_mentions; reflexivity
        | intros M; apply cell_contains_nocase_mentions in M;
          discriminate M ]|]).
      exists both_ways_clean,
        (views_or_empty
           (dashboard pd_example object_dtype both_ways_clean
              (Str "2024-01"))).
      repeat split; vm_compute; reflexivity. }
  intros raw out rd m H Hrd.
  destruct (clean_columns raw out H)
    as (date & amount & category & direction & location
        & _ & _ & _ & _ & _ & Od & Oa & Oc & Or & Ol & On & Om).
  do 3 eexists.
  split; [exact Om|]. split; [exact Or|]. split; [exact On|].
  cbv zeta.
  pose proof (dashboard_views pd (direction_dtype rd) out m _ _ _ _ _ _ _
                Od Oa Oc Or Ol On Om) as V.
  cbv zeta in V.
  set (month := select (map notna (coerce_dates pd date))
                  (map dt_strftime_Ym (coerce_dates pd date))) in *.
  set (dir := select (map notna (coerce_dates pd date))
                (fillna (Str "Unknown") direction)) in *.
  set (amounts := select (map notna (coerce_dates pd date))
                    (map (amount_cell pd) amount)) in *.
  set (rows := record_rows month dir amounts).
  split.
  { intros T.
    rewrite (clean_direction_text raw out rd dir _ H Hrd Or T) in V.
    eexists. exact V. }
  intros v Hv. rewrite V in Hv.
  destruct (str_accessor (direction_dtype rd) (select (map (elem_eq m) month) dir))
    as [texts|e]; [|discriminate Hv].
  injection Hv as <-. cbn [v_paid_total v_received_total v_net].
  exists (matching_rows "Paid" m rows), (matching_rows "Received" m rows).
  pose proof (matching_rows_marks "Paid" m rows) as Mp.
  pose proof (matching_rows_marks "Received" m rows) as Mr.
  split; [exact Mp|]. split; [exact Mr|].
  rewrite !select_twice_rows. fold rows.
  split; [reflexivity|]. split; [reflexivity|]. split; [reflexivity|].
  split.
  { intros r Hin Cp Cr. split.
    - apply (marks_In _ _ _ Mp). split; assumption.
    - apply (marks_In _ _ _ Mr). split; assumption. }
  intros r Hin Em Hm Np Nr.
  split.
  { intros Hsel. apply (marks_In _ _ _ Mp) in Hsel.
    destruct Hsel as [_ (_ & _ & C)]. exact (Np C). }
  split.
  { intros Hsel. apply (marks_In _ _ _ Mr) in Hsel.
    destruct Hsel as [_ (_ & _ & C)]. exact (Nr C). }
  unfold month_df. rewrite Om. cbn [bind]. fold month.
  do 4 eexists. split; [reflexivity|].
  rewrite !getitem_frame_select, Om, Or, On. fold month dir amounts.
  split; [reflexivity|]. split; [reflexivity|]. split; [reflexivity|].
  rewrite select_record_rows. fold rows. unfold rows at 1, record_rows.
  rewrite select_by_key. apply filter_In. split; [exact Hin|].
  apply elem_eq_iff. split; [exact Em | exact Hm].
Qed.


(** C8, as the code has it: for a cleaned frame, the empty one included,
    and a selected month that is not in the month list, the page is
    computed without failure when the direction column is not a numeric
    one, as it is not when the directions of the input are text or missing:
    the three totals are 0 and the category breakdown, the breakdown by
    category and direction and the detail table have no row.  When the
    direction column is numeric the page fails with an AttributeError,
    whatever the month. *)
Theorem absent_month_gives_empty_views (raw out : frame) (rd : column)
    (m : cell) :
  load_and_clean pd raw = Ok out ->
  getitem raw "Received / paid" = Ok rd ->
  exists months,
    month_list out = Ok months /\
    (Forall text_or_missing rd -> direction_dtype rd = object_dtype) /\
    (direction_dtype rd = object_dtype ->
     ~ In m months ->
     dashboard pd (direction_dtype rd) out m =
     Ok (mkViews f64_zero f64_zero f64_zero
           [("Category", []); ("Amount_numeric", [])]
           [("Category", []); ("Received / paid", []); ("Amount_numeric", [])]
           [("Date", []); ("Category", []); ("Amount", []);
            ("Received / paid", []); ("If shopped, where", [])])) /\
    (direction_dtype rd = numeric_dtype ->
     forall selected_month,
       dashboard pd (direction_dtype rd) out selected_month =
       Raise AttributeError).
Proof.
  intros H Hrd.
  destruct (clean_columns raw out H)
    as (date & amount & category & direction & location
        & _ & _ & _ & _ & _ & Od & Oa & Oc & Or & Ol & On & Om).
  cbv zeta in *.
  destruct (month_list_members out _ Om) as [months [Hml Hin]].
  exists months. split; [exact Hml|].
  split; [apply text_direction_dtype|].
  split.
  - intros Ed Hm.
    rewrite (dashboard_views pd (direction_dtype rd) out m _ _ _ _ _ _ _
               Od Oa Oc Or Ol On Om).
    cbv zeta.
    set (month := select (map notna (coerce_dates pd date))
                    (map dt_strftime_Ym (coerce_dates pd date))) in *.
    assert (Forall (fun c => elem_eq m c = false) month) as N.
    { apply Forall_forall. intros c Hc'.
      destruct (elem_eq m c) eqn:E; [|reflexivity].
      unfold elem_eq in E. apply andb_prop in E. destruct E as [_ E].
      apply cell_eqb_eq in E. subst c. exfalso. apply Hm. apply Hin.
      exact Hc'. }
    rewrite !(select_none (elem_eq m) month _ N).
    rewrite Ed. reflexivity.
  - intros Ed selected_month.
    rewrite (dashboard_views pd (direction_dtype rd) out selected_month
               _ _ _ _ _ _ _ Od Oa Oc Or Ol On Om).
    cbv zeta. rewrite Ed. reflexivity.
Qed.

End AggregatorClaims.

(** ** Groups of any key *)

Section GroupsOfKeys.

Context {K A : Type}.
Variable eqb : K -> K -> bool.
Hypothesis eqb_eq : forall a b, eqb a b = true <-> a = b.

Lemma key_eqb_refl (a : K) : eqb a a = true.
Proof. apply eqb_eq. reflexivity. Qed.

Lemma key_eqb_sym (a b : K) : eqb a b = eqb b a.
Proof.
  destruct (eqb a b) eqn:E.
  - apply eqb_eq in E. subst. symmetry. apply key_eqb_refl.
  - destruct (eqb b a) eqn:E'; [|reflexivity].
    apply eqb_eq in E'. subst. rewrite key_eqb_refl in E. discriminate E.
Qed.

Lemma flat_map_ext_members (F G : K -> list A) (l : list K) :
  (forall g, In g l -> F g = G g) -> flat_map F l = flat_map G l.
Proof.
  induction l as [|x l IH]; intros H; simpl; [reflexivity|].
  rewrite (H x (or_introl eq_refl)), IH; [reflexivity|].
  intros g Hg. apply H. right. exact Hg.
Qed.

(** The rows of distinct groups, with the group of [k] taken apart. *)
Lemma key_groups_split (G : K -> list A) (k : K) (l : list K) :
  NoDup l ->
  Permutation (flat_map G l)
    ((if existsb (eqb k) l then G k else [])
     ++ flat_map G (filter (fun y => negb (eqb k y)) l)).
Proof.
  induction 1 as [|x l Hx _ IH]; simpl; [reflexivity|].
  destruct (eqb k x) eqn:E; simpl.
  - apply eqb_eq in E. subst x.
    assert (existsb (eqb k) l = false) as N.
    { destruct (existsb (eqb k) l) eqn:X; [|reflexivity].
      apply existsb_exists in X. destruct X as [y [Hy Ey]].
      apply eqb_eq in Ey. subst y. contradiction. }
    rewrite N in IH. apply Permutation_app_head. exact IH.
  - rewrite Permutation_app_swap_app. apply Permutation_app_head. exact IH.
Qed.

Lemma key_group_absent (k : K) (keys : list K) (vals : list A) :
  ~ In k keys -> select (map (eqb k) keys) vals = [].
Proof.
  intros H. apply select_none.
  apply Forall_forall. intros c Hc.
  destruct (eqb k c) eqn:E; [|reflexivity].
  apply eqb_eq in E. subst c. contradiction.
Qed.

(** The groups of the distinct keys hold every row once. *)
Lemma key_groups_perm (keys : list K) (vals : list A) :
  List.length keys = List.length vals ->
  Permutation
    (flat_map (fun g => select (map (eqb g) keys) vals) (unique eqb keys))
    vals.
Proof.
  revert vals. induction keys as [|k keys IH]; intros [|v vals] L;
    try discriminate L; [reflexivity|].
  injection L as L. cbn [unique flat_map].
  rewrite (flat_map_ext_members _
             (fun g => select (map (eqb g) keys) vals)
             (filter (fun y => negb (eqb k y)) (unique eqb keys))).
  2:{ intros g Hg. apply filter_In in Hg. destruct Hg as [_ Hg].
      cbn [map select]. rewrite key_eqb_sym.
      destruct (eqb k g); [discriminate Hg | reflexivity]. }
  cbn [map select]. rewrite key_eqb_refl. cbn [app].
  constructor.
  rewrite <- (IH vals L) at 2.
  rewrite (key_groups_split
             (fun g => select (map (eqb g) keys) vals) k
             (unique eqb keys) (NoDup_unique eqb eqb_eq keys)).
  destruct (existsb (eqb k) (unique eqb keys)) eqn:X; [reflexivity|].
  rewrite key_group_absent; [reflexivity|]. intros Hin.
  apply (In_unique eqb eqb_eq) in Hin.
  assert (existsb (eqb k) (unique eqb keys) = true) as Y
    by (apply existsb_exists; exists k; split;
        [exact Hin | apply key_eqb_refl]).
  congruence.
Qed.

End GroupsOfKeys.

Lemma filter_notna (keys : column) :
  Forall (fun c => notna c = true) keys -> filter notna keys = keys.
Proof.
  induction 1 as [|c l Hc _ IH]; simpl; [reflexivity|].
  rewrite Hc, IH. reflexivity.
Qed.

Lemma pair_eqb_eq (a b : cell * cell) : pair_eqb a b = true <-> a = b.
Proof.
  destruct a as [a1 a2], b as [b1 b2]. unfold pair_eqb. cbn [fst snd].
  rewrite andb_true_iff, !cell_eqb_eq. split.
  - intros [-> ->]. reflexivity.
  - intros E. injection E as -> ->. split; reflexivity.
Qed.

Lemma combine_fst_snd {A B} (l : list (A * B)) :
  combine (map fst l) (map snd l) = l.
Proof.
  induction l as [|[a b] l IH]; simpl; [reflexivity|].
  rewrite IH. reflexivity.
Qed.

Lemma filter_pair_notna (keys1 keys2 : column) :
  Forall (fun c => notna c = true) keys1 ->
  Forall (fun c => notna c = true) keys2 ->
  filter pair_notna (combine keys1 keys2) = combine keys1 keys2.
Proof.
  intros H1. revert keys2.
  induction H1 as [|a l Ha _ IH]; intros keys2 H2; [reflexivity|].
  destruct H2 as [|b l2 Hb H2]; [reflexivity|].
  cbn [combine filter]. unfold pair_notna at 1. cbn [fst snd].
  rewrite Ha, Hb. cbn [andb]. rewrite (IH l2 H2). reflexivity.
Qed.

(** What a [groupby] on two keys without missing values gives: one row for
    each distinct pair of keys, a sum of its own rows for each, and every
    row in the group of exactly one pair. *)
Lemma group2_sums_facts (pd : pandas) (k1 k2 v : string)
    (keys1 keys2 vals : column) :
  v <> k1 -> v <> k2 -> k1 <> k2 ->
  List.length keys1 = List.length vals ->
  List.length keys2 = List.length vals ->
  Forall (fun c => notna c = true) keys1 ->
  Forall (fun c => notna c = true) keys2 ->
  exists g1 g2 sums,
    getitem (group2_sums pd k1 k2 v keys1 keys2 vals) k1 = Ok g1 /\
    getitem (group2_sums pd k1 k2 v keys1 keys2 vals) k2 = Ok g2 /\
    getitem (group2_sums pd k1 k2 v keys1 keys2 vals) v = Ok sums /\
    let of_group g := select (map (pair_eqb g) (combine keys1 keys2)) vals in
    NoDup (combine g1 g2) /\
    (forall p, In p (combine g1 g2) <-> In p (combine keys1 keys2)) /\
    sums = map (fun g => Num (group_sum pd (numbers (of_group g))))
             (combine g1 g2) /\
    Permutation (flat_map of_group (combine g1 g2)) vals.
Proof.
  intros N1 N2 N12 L1 L2 F1 F2. unfold group2_sums.
  rewrite (filter_pair_notna keys1 keys2 F1 F2).
  set (keys := combine keys1 keys2).
  set (groups := sort pair_leb (unique pair_eqb keys)).
  do 3 eexists. cbn [getitem].
  rewrite String.eqb_refl.
  rewrite (proj2 (String.eqb_neq k1 k2) N12).
  rewrite (proj2 (String.eqb_neq k1 v)) by congruence.
  rewrite (proj2 (String.eqb_neq k2 v)) by congruence.
  rewrite !String.eqb_refl.
  split; [reflexivity|]. split; [reflexivity|]. split; [reflexivity|].
  cbv zeta. rewrite combine_fst_snd.
  assert (Permutation groups (unique pair_eqb keys)) as P
    by apply sort_perm.
  split.
  { apply (Permutation_NoDup (Permutation_sym P)).
    apply NoDup_unique. exact pair_eqb_eq. }
  split.
  { intros p. rewrite <- (In_unique pair_eqb pair_eqb_eq p keys). split.
    - apply Permutation_in. exact P.
    - apply Permutation_in. symmetry. exact P. }
  split; [reflexivity|].
  rewrite P. apply (key_groups_perm pair_eqb pair_eqb_eq). unfold keys.
  rewrite length_combine, L1, L2. apply Nat.min_id.
Qed.

Lemma fillna_notna (v : cell) (col : column) :
  notna v = true -> Forall (fun c => notna c = true) (fillna v col).
Proof.
  intros Hv. unfold fillna. apply Forall_forall. intros c Hin.
  apply in_map_iff in Hin. destruct Hin as [c0 [<- _]].
  destruct c0; first [exact Hv | reflexivity].
Qed.

Lemma texts_notna (texts : list string) :
  Forall (fun c => notna c = true) (map Str texts).
Proof.
  apply Forall_forall. intros c Hin. apply in_map_iff in Hin.
  destruct Hin as [t [<- _]]. reflexivity.
Qed.

(** ** Sorted and distinct keys *)

Section KeyMaps.

Context {K K' : Type}.
Variable f : K -> K'.
Variable eqb : K -> K -> bool.
Variable eqb' : K' -> K' -> bool.
Hypothesis eqb_f : forall a b, eqb' (f a) (f b) = eqb a b.

Lemma unique_map (l : list K) :
  unique eqb' (map f l) = map f (unique eqb l).
Proof.
  induction l as [|x l IH]; simpl; [reflexivity|].
  rewrite IH. f_equal. clear IH. generalize (unique eqb l). intros u.
  induction u as [|y u IHu]; simpl; [reflexivity|].
  rewrite eqb_f. destruct (eqb x y); simpl; rewrite IHu; reflexivity.
Qed.

Variable leb : K -> K -> bool.
Variable leb' : K' -> K' -> bool.
Hypothesis leb_f : forall a b, leb' (f a) (f b) = leb a b.

Lemma insert_sorted_map (x : K) (l : list K) :
  insert_sorted leb' (f x) (map f l) = map f (insert_sorted leb x l).
Proof.
  induction l as [|y l IH]; simpl; [reflexivity|].
  rewrite leb_f. destruct (leb x y); simpl; [reflexivity|].
  rewrite IH. reflexivity.
Qed.

Lemma sort_map (l : list K) : sort leb' (map f l) = map f (sort leb l).
Proof.
  induction l as [|x l IH]; simpl; [reflexivity|].
  rewrite IH. apply insert_sorted_map.
Qed.

End KeyMaps.

Section SortedKeys.

Context {K : Type}.
Variable leb : K -> K -> bool.
Hypothesis leb_total : forall a b, leb a b = true \/ leb b a = true.

Lemma insert_sorted_HdRel (a x : K) (l : list K) :
  HdRel (fun u v => leb u v = true) a l ->
  leb a x = true ->
  HdRel (fun u v => leb u v = true) a (insert_sorted leb x l).
Proof.
  intros H Hx. destruct l as [|y l]; simpl.
  - constructor. exact Hx.
  - destruct (leb x y); constructor; [exact Hx|].
    inversion H; assumption.
Qed.

Lemma insert_sorted_Sorted (x : K) (l : list K) :
  Sorted (fun u v => leb u v = true) l ->
  Sorted (fun u v => leb u v = true) (insert_sorted leb x l).
Proof.
  induction 1 as [|a l Hs IH Hh]; simpl.
  - repeat constructor.
  - destruct (leb x a) eqn:E.
    + constructor; [constructor; assumption|]. constructor. exact E.
    + constructor; [exact IH|].
      apply insert_sorted_HdRel; [exact Hh|].
      destruct (leb_total a x) as [T|T]; [exact T | congruence].
Qed.

Lemma sort_Sorted (l : list K) : Sorted (fun u v => leb u v = true) (sort leb l).
Proof.
  induction l as [|x l IH]; simpl; [constructor|].
  apply insert_sorted_Sorted. exact IH.
Qed.

End SortedKeys.

Lemma descending_strict (l : list string) :
  Sorted (fun u v => String.leb v u = true) l -> NoDup l ->
  strictly_descending l.
Proof.
  induction 1 as [|a l Hs IH Hh]; intros N; [exact I|].
  cbn [strictly_descending]. split.
  - destruct l as [|b l]; [exact I|].
    inversion Hh as [|? ? Hba]; subst.
    assert (a <> b) as Nab.
    { intros ->. inversion N as [|? ? Hin _]; subst. apply Hin. left.
      reflexivity. }
    unfold String.leb in Hba. unfold String.ltb.
    destruct (String.compare b a) eqn:C; try reflexivity.
    + apply String.compare_eq_iff in C. congruence.
    + discriminate Hba.
  - apply IH. inversion N; assumption.
Qed.

Lemma strftime_texts (l : column) :
  Forall is_timestamp l ->
  exists texts, map dt_strftime_Ym l = map Str texts.
Proof.
  induction 1 as [|c l [t ->] _ [texts IH]].
  - exists []. reflexivity.
  - exists (strftime_Ym t :: texts). simpl. rewrite IH. reflexivity.
Qed.

Lemma month_list_of_texts (df : frame) (texts : list string) :
  getitem df "Month" = Ok (map Str texts) ->
  month_list df =
  Ok (map Str (sort (fun a b => String.leb b a) (unique String.eqb texts))).
Proof.
  intros H. unfold month_list. rewrite H. cbn [bind]. f_equal.
  rewrite (unique_map Str String.eqb cell_eqb) by reflexivity.
  rewrite (sort_map Str (fun a b => String.leb b a)
             (fun a b => cell_leb b a)) by reflexivity.
  reflexivity.
Qed.

Lemma select_self_nonempty {A} (p : A -> bool) (x : A) (l : list A) :
  In x l -> p x = true -> select (map p l) l <> [].
Proof.
  induction l as [|y l IH]; simpl; intros Hin Hp; [contradiction|].
  destruct (p y) eqn:E; [discriminate|].
  destruct Hin as [->|Hin]; [congruence | exact (IH Hin Hp)].
Qed.

(** ** The category breakdown *)

Section CategoryBreakdown.

Variable pd : pandas.

Lemma clean_month_texts (raw out : frame) :
  load_and_clean pd raw = Ok out ->
  exists texts, getitem out "Month" = Ok (map Str texts).
Proof.
  intros H.
  destruct (clean_columns pd raw out H)
    as (date & amount & category & direction & location
        & _ & _ & _ & _ & _ & _ & _ & _ & _ & _ & _ & Om).
  cbv zeta in Om. rewrite select_map in Om.
  destruct (strftime_texts _ (kept_dates_are_timestamps pd date))
    as [texts E].
  exists texts. rewrite Om, E. reflexivity.
Qed.

(** The columns the breakdowns read, in a cleaned frame: they have the same
    number of rows and the keys have no missing value. *)
Lemma clean_keys (n : nat) (raw out : frame) :
  rectangular n raw ->
  load_and_clean pd raw = Ok out ->
  exists month category direction amounts,
    getitem out "Month" = Ok month /\
    getitem out "Category" = Ok category /\
    getitem out "Received / paid" = Ok direction /\
    getitem out "Amount_numeric" = Ok amounts /\
    List.length month = List.length amounts /\
    List.length category = List.length amounts /\
    List.length direction = List.length amounts /\
    Forall (fun c => notna c = true) month /\
    Forall (fun c => notna c = true) category /\
    Forall (fun c => notna c = true) direction.
Proof.
  intros R H.
  destruct (clean_month_texts raw out H) as [texts Hm].
  destruct (clean_columns pd raw out H)
    as (date & amount & category & direction & location
        & Hd & Ha & Hc & Hr & Hl & Od & Oa & Oc & Or & Ol & On & Om).
  cbv zeta in *.
  do 4 eexists.
  split; [exact Hm|]. split; [exact Oc|]. split; [exact Or|].
  split; [exact On|].
  assert (List.length (map Str texts) =
          List.length (select (map notna (coerce_dates pd date))
                         (map (amount_cell pd) amount))) as Lm.
  { assert (map Str texts =
            select (map notna (coerce_dates pd date))
              (map dt_strftime_Ym (coerce_dates pd date))) as ->
      by congruence.
    apply length_select_same. unfold coerce_dates. rewrite !length_map.
    rewrite (rectangular_getitem n raw _ _ R Hd).
    rewrite (rectangular_getitem n raw _ _ R Ha). reflexivity. }
  split; [exact Lm|].
  split.
  { apply length_select_same. unfold fillna. rewrite !length_map.
    rewrite (rectangular_getitem n raw _ _ R Hc).
    rewrite (rectangular_getitem n raw _ _ R Ha). reflexivity. }
  split.
  { apply length_select_same. unfold fillna. rewrite !length_map.
    rewrite (rectangular_getitem n raw _ _ R Hr).
    rewrite (rectangular_getitem n raw _ _ R Ha). reflexivity. }
  split; [apply texts_notna|].
  split; apply Forall_select; apply fillna_notna; reflexivity.
Qed.

(** C6, as the code has it: for a cleaned frame and any selected month the
    groups of the category breakdown divide the records of the month.  The
    categories of the breakdown are distinct, the sum of each is the
    [groupby] sum of the amounts of the month's records of that category,
    and the amounts summed in the groups, taken together, are the amounts
    of all the records of the month, each one once, whatever the direction.
    (The sums themselves are float64 sums, and float64 sums of the same
    numbers in another bracketing may differ in the last bit: the sums of
    the groups need not add up to the sum of the month.) *)
Theorem category_groups_divide_the_month (n : nat) (raw out : frame)
    (m : cell) :
  rectangular n raw ->
  load_and_clean pd raw = Ok out ->
  exists month category amounts mdf cs groups sums,
    getitem out "Month" = Ok month /\
    getitem out "Category" = Ok category /\
    getitem out "Amount_numeric" = Ok amounts /\
    month_df out m = Ok mdf /\
    cat_sum pd mdf = Ok cs /\
    getitem cs "Category" = Ok groups /\
    getitem cs "Amount_numeric" = Ok sums /\
    let in_month := map (elem_eq m) month in
    let of_group g :=
      select (map (cell_eqb g) (select in_month category))
        (select in_month amounts) in
    NoDup groups /\
    sums = map (fun g => Num (group_sum pd (numbers (of_group g)))) groups /\
    Permutation (flat_map of_group groups) (select in_month amounts).
Proof.
  intros R H.
  destruct (clean_keys n raw out R H)
    as (month & category & direction & amounts
        & Hm & Hc & Hr & Hn & Lm & Lc & Lr & Fm & Fc & Fr).
  set (in_month := map (elem_eq m) month).
  exists month, category, amounts, (frame_select in_month out).
  unfold month_df. rewrite Hm. cbn [bind]. fold in_month.
  unfold cat_sum, groupby_sum.
  rewrite !getitem_frame_select, Hc, Hn. cbn [bind].
  do 3 eexists.
  split; [reflexivity|]. split; [reflexivity|]. split; [reflexivity|].
  split; [reflexivity|]. split; [reflexivity|].
  unfold group_sums.
  cbn [getitem String.eqb Ascii.eqb Bool.eqb].
  split; [reflexivity|]. split; [reflexivity|]. cbv zeta.
  set (cats := select in_month category).
  set (amts := select in_month amounts).
  unfold group_keys.
  rewrite (filter_notna cats) by (apply Forall_select; exact Fc).
  assert (Permutation (sort cell_leb (unique cell_eqb cats))
            (unique cell_eqb cats)) as P by apply sort_perm.
  split.
  { apply (Permutation_NoDup (Permutation_sym P)).
    apply NoDup_unique. exact cell_eqb_eq. }
  split; [reflexivity|].
  rewrite P. apply (key_groups_perm cell_eqb cell_eqb_eq).
  apply length_select_same. exact Lc.
Qed.

End CategoryBreakdown.

(** ** The claims on the worked example *)

Lemma scenario_rectangular : rectangular 3 scenario.
Proof. repeat constructor. Qed.

Lemma scenario_cleaned : example_load_and_clean scenario = Ok scenario_clean.
Proof. vm_compute. reflexivity. Qed.



Lemma tenths_cleaned : example_load_and_clean tenths = Ok tenths_clean.
Proof. vm_compute. reflexivity. Qed.

Lemma coded_directions_cleaned :
  example_load_and_clean coded_directions = Ok coded_directions_clean.
Proof. vm_compute. reflexivity. Qed.

Lemma both_ways_cleaned :
  example_load_and_clean both_ways = Ok both_ways_clean.
Proof. vm_compute. reflexivity. Qed.







(** The scenario: the amount text of its kept rows. *)
Lemma amount_column_is_untouched_witness :
  example_load_and_clean scenario = Ok scenario_clean /\
  exists date amount,
    getitem scenario "Date" = Ok date /\
    getitem scenario "Amount" = Ok amount /\
    let keep := map notna (coerce_dates pd_example date) in
    getitem scenario_clean "Amount" = Ok (select keep amount) /\
    forall selected_month,
    exists months mdf detail,
      getitem scenario_clean "Month" = Ok months /\
      month_df scenario_clean selected_month = Ok mdf /\
      month_df_display mdf = Ok detail /\
      getitem detail "Amount" =
        Ok (select (map (elem_eq selected_month) months) (select keep amount)) /\
      getitem detail "Amount_numeric" = Raise (KeyError "Amount_numeric").
Proof.
  split; [exact scenario_cleaned|].
  exact (amount_column_is_untouched pd_example
           scenario scenario_clean scenario_cleaned).
Defined.





(** January 2024 of the frame with a record of both words and one of
    neither. *)
Lemma overview_totals_by_direction_witness :
  example_load_and_clean both_ways = Ok both_ways_clean /\
  getitem both_ways "Received / paid" =
    Ok [Str "paid"; Str "RECEIVED"; Str "Paid back, received"; NA] /\
  exists month direction amounts,
    getitem both_ways_clean "Month" = Ok month /\
    getitem both_ways_clean "Received / paid" = Ok direction /\
    getitem both_ways_clean "Amount_numeric" = Ok amounts /\
    let rows := record_rows month direction amounts in
    let m := Str "2024-01" in
    (Forall text_or_missing
       [Str "paid"; Str "RECEIVED"; Str "Paid back, received"; NA] ->
     exists v, dashboard pd_example object_dtype both_ways_clean m = Ok v) /\
    (forall v,
       dashboard pd_example object_dtype both_ways_clean m = Ok v ->
       exists paid received,
         marks (counted "Paid" m) rows paid /\
         marks (counted "Received" m) rows received /\
         v_paid_total v =
           col_sum pd_example (map row_amount_cell (select paid rows)) /\
         v_received_total v =
           col_sum pd_example (map row_amount_cell (select received rows)) /\
         v_net v = f64_sub (v_received_total v) (v_paid_total v) /\
         (forall r,
            In r rows -> counted "Paid" m r -> counted "Received" m r ->
            In r (select paid rows) /\ In r (select received rows)) /\
         (forall r,
            In r rows -> row_month r = m -> m <> NA ->
            ~ mentions "Paid" (row_direction r) ->
            ~ mentions "Received" (row_direction r) ->
            ~ In r (select paid rows) /\ ~ In r (select received rows) /\
            exists mdf mmonth mdirection mamounts,
              month_df both_ways_clean m = Ok mdf /\
              getitem mdf "Month" = Ok mmonth /\
              getitem mdf "Received / paid" = Ok mdirection /\
              getitem mdf "Amount_numeric" = Ok mamounts /\
              In r (record_rows mmonth mdirection mamounts))).
Proof.
  split; [exact both_ways_cleaned|]. split; [reflexivity|].
  exact (proj1 (overview_totals_by_direction pd_example)
           both_ways both_ways_clean
           [Str "paid"; Str "RECEIVED"; Str "Paid back, received"; NA]
           (Str "2024-01") both_ways_cleaned eq_refl).
Defined.



(** C6, the claim as stated fails: with 0.1 in one category and 0.2 and 0.3
    in another the sums of the categories are 0.1 and 0.5, which add up to
    0.6, and the sum of the month is 0.6000000000000001. *)
Lemma category_sums_can_miss_the_month_total :
  ~ (forall (pd : pandas) (raw out : frame) (m : cell)
            (month amounts : column) (mdf cs : frame) (sums : column),
       load_and_clean pd raw = Ok out ->
       getitem out "Month" = Ok month ->
       getitem out "Amount_numeric" = Ok amounts ->
       month_df out m = Ok mdf ->
       cat_sum pd mdf = Ok cs ->
       getitem cs "Amount_numeric" = Ok sums ->
       col_sum pd sums = col_sum pd (select (map (elem_eq m) month) amounts)).
Proof.
  intros H.
  assert (month_df tenths_clean (Str "2024-01") = Ok tenths_clean) as Em
    by (vm_compute; reflexivity).
  pose proof (H pd_example tenths tenths_clean (Str "2024-01")
                [Str "2024-01"; Str "2024-01"; Str "2024-01"]
                [Num (nearest_float64 false (Q2Qc (1 # 10)));
                 Num (nearest_float64 false (Q2Qc (2 # 10)));
                 Num (nearest_float64 false (Q2Qc (3 # 10)))]
                tenths_clean
                [("Category", [Str "A"; Str "B"]);
                 ("Amount_numeric",
                  [Num (nearest_float64 false (Q2Qc (1 # 10)));
                   Num (f64_add (nearest_float64 false (Q2Qc (2 # 10)))
                          (nearest_float64 false (Q2Qc (3 # 10))))])]
                [Num (nearest_float64 false (Q2Qc (1 # 10)));
                 Num (f64_add (nearest_float64 false (Q2Qc (2 # 10)))
                        (nearest_float64 false (Q2Qc (3 # 10))))]
                tenths_cleaned) as E.
  assert (col_sum pd_example
            [Num (nearest_float64 false (Q2Qc (1 # 10)));
             Num (f64_add (nearest_float64 false (Q2Qc (2 # 10)))
                    (nearest_float64 false (Q2Qc (3 # 10))))] =
          col_sum pd_example
            (select (map (elem_eq (Str "2024-01"))
                       [Str "2024-01"; Str "2024-01"; Str "2024-01"])
               [Num (nearest_float64 false (Q2Qc (1 # 10)));
                Num (nearest_float64 false (Q2Qc (2 # 10)));
                Num (nearest_float64 false (Q2Qc (3 # 10)))])) as F.
  { apply E; try exact Em; vm_compute; reflexivity. }
  vm_compute in F. discriminate F.
Qed.

(** The scenario in January 2024. *)
Lemma category_groups_divide_the_month_witness :
  rectangular 3 scenario /\
  example_load_and_clean scenario = Ok scenario_clean /\
  exists month category amounts mdf cs groups sums,
    getitem scenario_clean "Month" = Ok month /\
    getitem scenario_clean "Category" = Ok category /\
    getitem scenario_clean "Amount_numeric" = Ok amounts /\
    month_df scenario_clean (Str "2024-01") = Ok mdf /\
    cat_sum pd_example mdf = Ok cs /\
    getitem cs "Category" = Ok groups /\
    getitem cs "Amount_numeric" = Ok sums /\
    let in_month := map (elem_eq (Str "2024-01")) month in
    let of_group g :=
      select (map (cell_eqb g) (select in_month category))
        (select in_month amounts) in
    NoDup groups /\
    sums = map (fun g => Num (group_sum pd_example (numbers (of_group g))))
             groups /\
    Permutation (flat_map of_group groups) (select in_month amounts).
Proof.
  split; [exact scenario_rectangular|]. split; [exact scenario_cleaned|].
  exact (category_groups_divide_the_month pd_example 3
           scenario scenario_clean (Str "2024-01")
           scenario_rectangular scenario_cleaned).
Defined.

(** C8, the claim as stated fails: when the directions are codes, numbers,
    the direction column is a numeric one and the page of a month, absent
    or not, fails with an AttributeError. *)
Lemma numeric_directions_fail_on_an_absent_month :
  ~ (forall (pd : pandas) (raw out : frame) (rd : column) (m : cell)
            (months : list cell),
       load_and_clean pd raw = Ok out ->
       getitem raw "Received / paid" = Ok rd ->
       month_list out = Ok months ->
       ~ In m months ->
       exists v, dashboard pd (direction_dtype rd) out m = Ok v).
Proof.
  intros H.
  assert (month_list coded_directions_clean = Ok [Str "2024-01"]) as L
    by (vm_compute; reflexivity).
  assert (~ In (Str "2023-12") [Str "2024-01"]) as N
    by (intros [E|[]]; discriminate E).
  destruct (H pd_example coded_directions coded_directions_clean
              [whole 1; whole 2] (Str "2023-12") [Str "2024-01"]
              coded_directions_cleaned eq_refl L N) as [v E].
  vm_compute in E. discriminate E.
Qed.

(** The scenario and December 2023, a month it has no row of. *)
Lemma absent_month_gives_empty_views_witness :
  example_load_and_clean scenario = Ok scenario_clean /\
  getitem scenario "Received / paid" =
    Ok [Str "Paid"; Str "Received"; Str "Paid"] /\
  month_list scenario_clean = Ok [Str "2024-01"] /\
  ~ In (Str "2023-12") [Str "2024-01"] /\
  direction_dtype [Str "Paid"; Str "Received"; Str "Paid"] = object_dtype /\
  dashboard pd_example object_dtype scenario_clean (Str "2023-12") =
  Ok (mkViews f64_zero f64_zero f64_zero
        [("Category", []); ("Amount_numeric", [])]
        [("Category", []); ("Received / paid", []); ("Amount_numeric", [])]
        [("Date", []); ("Category", []); ("Amount", []);
         ("Received / paid", []); ("If shopped, where", [])]).
Proof.
  assert (month_list scenario_clean = Ok [Str "2024-01"]) as L
    by (vm_compute; reflexivity).
  assert (~ In (Str "2023-12") [Str "2024-01"]) as N
    by (intros [E|[]]; discriminate E).
  split; [exact scenario_cleaned|]. split; [reflexivity|].
  split; [exact L|]. split; [exact N|]. split; [reflexivity|].
  destruct (absent_month_gives_empty_views pd_example
              scenario scenario_clean
              [Str "Paid"; Str "Received"; Str "Paid"]
              (Str "2023-12") scenario_cleaned eq_refl)
    as [months [Hl [_ [Hd _]]]].
  rewrite L in Hl. injection Hl as <-.
  exact (Hd eq_refl N).
Defined.

(** The frame of coded directions, evaluated: the page of its own month
    fails as that of an absent month does. *)
Example coded_directions_views :
  dashboard pd_example (direction_dtype [whole 1; whole 2])
    coded_directions_clean (Str "2024-01") = Raise AttributeError /\
  dashboard pd_example (direction_dtype [whole 1; whole 2])
    coded_directions_clean (Str "2023-12") = Raise AttributeError.
Proof. split; vm_compute; reflexivity. Qed.

(** The scenario of the specification, evaluated: two rows are kept, the
    only month is 2024-01, and for it the page shows 100 paid, 200 received,
    a net of 100 and the breakdown Food 100, Salary 200. *)
Example scenario_views :
  rectangular 2 scenario_clean /\
  month_list scenario_clean = Ok [Str "2024-01"] /\
  exists v,
    dashboard pd_example object_dtype scenario_clean (Str "2024-01") = Ok v /\
    v_paid_total v = f64_of_Z 100 /\
    v_received_total v = f64_of_Z 200 /\
    v_net v = f64_of_Z 100 /\
    v_cat_sum v =
      [("Category", [Str "Food"; Str "Salary"]);
       ("Amount_numeric", [whole 100; whole 200])].
Proof.
  split; [repeat constructor|]. split; [vm_compute; reflexivity|].
  exists (views_or_empty
            (dashboard pd_example object_dtype scenario_clean (Str "2024-01"))).
  repeat split; vm_compute; reflexivity.
Qed.

(** What the amount parser accepts and rejects. *)
Example normalized_decimal_examples :
  normalized_decimal "-12.5" = Some (Q2Qc (-125 # 10)) /\
  normalized_decimal "  .5 CHF" = Some (Q2Qc (5 # 10)) /\
  normalized_decimal "7." = Some (Q2Qc 7) /\
  normalized_decimal "1-2" = None /\
  normalized_decimal "1.2.3" = None /\
  normalized_decimal "-" = None /\
  normalized_decimal "nan" = None.
Proof.
  repeat split; vm_compute; reflexivity.
Qed.

(** * More properties of the code *)

(** ** The columns of a cleaned frame *)

Lemma has_column_In (df : frame) (k : string) :
  has_column df k = true <-> In k (column_names df).
Proof.
  unfold has_column. rewrite existsb_exists. split.
  - intros [x [Hx E]]. apply String.eqb_eq in E. subst x. exact Hx.
  - intros H. exists k. split; [exact H | apply String.eqb_refl].
Qed.

Lemma column_names_setitem_eq (df : frame) (k : string) (v : column) :
  column_names (setitem df k v) =
  if has_column df k then column_names df else (column_names df ++ [k])%list.
Proof.
  unfold has_column, column_names.
  induction df as [|[k0 col] rest IH]; simpl; [reflexivity|].
  rewrite (String.eqb_sym k k0).
  destruct (String.eqb k0 k) eqn:E; simpl; [reflexivity|].
  rewrite IH. destruct (existsb (String.eqb k) (map fst rest)); reflexivity.
Qed.

Lemma has_column_setitem (df : frame) (k k' : string) (v : column) :
  has_column (setitem df k v) k' = has_column df k' || String.eqb k' k.
Proof.
  unfold has_column. rewrite column_names_setitem_eq.
  fold (has_column df k). destruct (has_column df k) eqn:E.
  - destruct (String.eqb_spec k' k) as [->|_].
    + unfold has_column in E. rewrite E. reflexivity.
    + rewrite orb_false_r. reflexivity.
  - rewrite existsb_app. simpl. rewrite orb_false_r. reflexivity.
Qed.

Lemma column_names_drop_unnamed_eq (df : frame) :
  column_names (drop_unnamed df) =
  filter (fun k => negb (startswith "Unnamed" k)) (column_names df).
Proof.
  unfold column_names, drop_unnamed.
  induction df as [|[k0 col] rest IH]; simpl; [reflexivity|].
  destruct (startswith "Unnamed" k0); simpl; rewrite IH; reflexivity.
Qed.

Lemma has_column_drop_unnamed (df : frame) (k : string) :
  startswith "Unnamed" k = false ->
  has_column (drop_unnamed df) k = has_column df k.
Proof.
  intros Hk. pose proof (getitem_has_column (drop_unnamed df) k) as A.
  pose proof (getitem_has_column df k) as B.
  rewrite getitem_drop_unnamed in A by exact Hk.
  destruct (has_column (drop_unnamed df) k), (has_column df k);
    try reflexivity.
  - destruct A as [c A]. congruence.
  - destruct B as [c B]. congruence.
Qed.

Section CleanedColumns.

Variable pd : pandas.

(** X1: the columns of the output are the columns of the input whose name
    does not start with "Unnamed", in their order, followed by
    [Amount_numeric] and [Month] where the input did not have them; so no
    column of the output has a name that starts with "Unnamed". *)
Theorem load_and_clean_column_names (raw out : frame) :
  load_and_clean pd raw = Ok out ->
  column_names out =
    (filter (fun k => negb (startswith "Unnamed" k)) (column_names raw)
     ++ (if has_column raw "Amount_numeric" then [] else ["Amount_numeric"])
     ++ (if has_column raw "Month" then [] else ["Month"]))%list /\
  Forall (fun k => startswith "Unnamed" k = false) (column_names out).
Proof.
  intros H.
  destruct (load_and_clean_Ok pd raw out H)
    as (date & amount & category & direction & location
        & Hd & Ha & Hc & Hr & Hl & ->).
  split.
  - rewrite column_names_frame_select. unfold prepared.
    rewrite !column_names_setitem_eq, !has_column_setitem.
    cbn [String.eqb Ascii.eqb Bool.eqb orb].
    rewrite !orb_false_r.
    rewrite !has_column_drop_unnamed by reflexivity.
    rewrite (getitem_Ok_has_column raw _ _ Hd),
      (getitem_Ok_has_column raw _ _ Hc),
      (getitem_Ok_has_column raw _ _ Hr),
      (getitem_Ok_has_column raw _ _ Hl).
    rewrite column_names_drop_unnamed_eq.
    destruct (has_column raw "Amount_numeric") eqn:En;
      destruct (has_column raw "Month") eqn:Em; cbn [orb];
      rewrite ?En, ?Em, ?app_nil_r, <- ?app_assoc; reflexivity.
  - apply Forall_forall. intros k Hk.
    rewrite column_names_frame_select in Hk.
    exact (prepared_names pd raw _ _ _ _ _ k Hk).
Qed.

End CleanedColumns.

(** ** The rows of a cleaned frame *)

Lemma count_true_le (mask : list bool) : count_true mask <= List.length mask.
Proof.
  induction mask as [|b mask IH]; simpl; [lia|]. destruct b; lia.
Qed.

Lemma count_true_all {A} (p : A -> bool) (xs : list A) :
  count_true (map p xs) = List.length xs <-> Forall (fun x => p x = true) xs.
Proof.
  induction xs as [|x xs IH]; simpl.
  - split; [constructor | reflexivity].
  - pose proof (count_true_le (map p xs)) as L. rewrite length_map in L.
    destruct (p x) eqn:E; split.
    + intros H. constructor; [exact E | apply IH; lia].
    + intros H. apply Forall_inv_tail in H. apply IH in H. lia.
    + intros H. lia.
    + intros H. apply Forall_inv in H. congruence.
Qed.

Section CleanedRows.
Variable pd : pandas.

(** X2: a column of the input that [load_and_clean] does not assign and
    whose name does not start with "Unnamed" is in the output with its own
    cells, those of the rows kept; a column whose name starts with "Unnamed"
    is not in the output, asking for it raises a KeyError. *)
Theorem other_columns_pass_through (raw out : frame) :
  load_and_clean pd raw = Ok out ->
  exists date,
    getitem raw "Date" = Ok date /\
    (forall k c,
       startswith "Unnamed" k = false ->
       ~ In k assigned_columns ->
       getitem raw k = Ok c ->
       getitem out k =
         Ok (select (map notna (coerce_dates pd date)) c)) /\
    (forall k,
       startswith "Unnamed" k = true ->
       getitem out k = Raise (KeyError k)).
Proof.
  intros H.
  destruct (load_and_clean_Ok pd raw out H)
    as (date & amount & category & direction & location
        & Hd & Ha & Hc & Hr & Hl & ->).
  exists date. split; [exact Hd|]. split.
  - intros k c Hk Hn Hg. rewrite getitem_frame_select. unfold prepared.
    unfold assigned_columns in Hn. cbn [In] in Hn.
    repeat (rewrite getitem_setitem;
            match goal with
            | |- context [String.eqb ?a k] =>
                destruct (String.eqb_spec a k) as [E|_];
                [exfalso; apply Hn; rewrite E; tauto|]
            end).
    rewrite getitem_drop_unnamed by exact Hk. rewrite Hg. reflexivity.
  - intros k Hk.
    pose proof (getitem_has_column
                  (frame_select (map notna (coerce_dates pd date))
                     (prepared pd raw date amount category
                        direction location)) k) as G.
    destruct (has_column _ k) eqn:E; [|exact G].
    apply has_column_In in E. rewrite column_names_frame_select in E.
    apply (prepared_names pd) in E. congruence.
Qed.

(** X3: the output never has more rows than the input, and it has as many
    exactly when the date of every row parsed. *)
Theorem load_and_clean_row_count (n : nat) (raw out : frame) :
  rectangular n raw ->
  load_and_clean pd raw = Ok out ->
  exists date m,
    getitem raw "Date" = Ok date /\
    rectangular m out /\
    m <= n /\
    (m = n <->
     Forall (fun c => notna c = true) (coerce_dates pd date)).
Proof.
  intros R H.
  destruct (load_and_clean_Ok pd raw out H)
    as (date & amount & category & direction & location
        & Hd & Ha & Hc & Hr & Hl & ->).
  pose proof (rectangular_getitem n raw _ _ R Hd) as Ld.
  assert (List.length (coerce_dates pd date) = n) as Lp
    by (unfold coerce_dates; rewrite length_map; exact Ld).
  exists date, (count_true (map notna (coerce_dates pd date))).
  split; [exact Hd|]. split.
  { apply rectangular_frame_select with (n := n).
    - apply prepared_rectangular; eauto using rectangular_getitem.
    - rewrite length_map. exact Lp. }
  split.
  - pose proof (count_true_le (map notna (coerce_dates pd date))) as L.
    rewrite length_map, Lp in L. exact L.
  - rewrite <- Lp at 1. apply count_true_all.
Qed.

End CleanedRows.

(** ** Text: what the amount and the direction depend on *)

Section AmountText.

Variable pd : pandas.

(** X4: deleting the token CHF changes no amount.  Its three letters are
    among the characters the pattern deletes anyway, so the amount of a cell
    is the one read from the text with the non-numeric characters alone
    deleted. *)
Theorem CHF_removal_is_redundant (c : cell) :
  amount_cell pd c =
  match parse_decimal (str_filter is_numeric_char (str_of_cell pd c)) with
  | Some q =>
      Num (float_of_decimal pd
             (startswith "-"
                (str_filter is_numeric_char (str_of_cell pd c))) q)
  | None => Num f64_zero
  end.
Proof.
  unfold amount_cell, astype_str_cell. cbn [str_map to_numeric_cell].
  rewrite filter_after_remove_CHF.
  destruct (parse_decimal _); reflexivity.
Qed.

(** X5: the amount of a piece of text depends on its digits, points and
    minus signs only: a character that is none of these (a space, a
    thousands separator, a letter) can be put anywhere in the text without
    changing the amount. *)
Theorem amount_ignores_other_characters (a b : string) (x : ascii) :
  is_numeric_char x = false ->
  amount_cell pd (Str (a ++ String x b)) =
  amount_cell pd (Str (a ++ b)).
Proof.
  intros Hx. unfold amount_cell, astype_str_cell.
  cbn [str_of_cell str_map to_numeric_cell].
  rewrite !filter_after_remove_CHF, !str_filter_app.
  cbn [str_filter]. rewrite Hx. reflexivity.
Qed.

End AmountText.

(** With an apostrophe between its digits the text 1234.56 still gives
    1234.56. *)
Lemma amount_ignores_other_characters_witness :
  is_numeric_char "'" = false /\
  amount_cell pd_example (Str ("1" ++ String "'" "234.56")) =
  amount_cell pd_example (Str ("1" ++ "234.56")).
Proof.
  split; [reflexivity|].
  exact (amount_ignores_other_characters pd_example "1" "234.56" "'" eq_refl).
Defined.


(** ** The month list *)

Section MonthList.

Variable pd : pandas.

(** X7: the month list of a cleaned frame is made of text, holds each month
    that occurs in the frame once and no other, and is in strictly
    descending order, the latest month first. *)
Theorem month_list_descending_distinct (raw out : frame) :
  load_and_clean pd raw = Ok out ->
  exists month ms,
    getitem out "Month" = Ok month /\
    month_list out = Ok (map Str ms) /\
    strictly_descending ms /\
    (forall m, In m ms <-> In (Str m) month).
Proof.
  intros H. destruct (clean_month_texts pd raw out H) as [texts Hm].
  exists (map Str texts),
    (sort (fun a b => String.leb b a) (unique String.eqb texts)).
  split; [exact Hm|]. split; [exact (month_list_of_texts out texts Hm)|].
  split.
  - apply descending_strict.
    + apply (sort_Sorted (fun a b => String.leb b a)).
      intros a b. destruct (String.leb_total b a); auto.
    + apply (Permutation_NoDup (l := unique String.eqb texts)).
      * symmetry. apply sort_perm.
      * apply NoDup_unique. apply String.eqb_eq.
  - intros m. rewrite in_map_iff. split.
    + intros Hin. exists m. split; [reflexivity|].
      apply (In_unique String.eqb String.eqb_eq).
      apply (Permutation_in m (sort_perm (fun a b => String.leb b a) _)).
      exact Hin.
    + intros [m' [E Hin]]. injection E as ->.
      apply (Permutation_in m
               (Permutation_sym (sort_perm (fun a b => String.leb b a) _))).
      apply (In_unique String.eqb String.eqb_eq). exact Hin.
Qed.

(** X8: the rows of the month frame all have the selected month, and for a
    month taken from the month list there is at least one of them. *)
Theorem month_df_holds_the_selected_month (raw out : frame) (m : cell) :
  load_and_clean pd raw = Ok out ->
  exists ms mdf months,
    month_list out = Ok ms /\
    month_df out m = Ok mdf /\
    getitem mdf "Month" = Ok months /\
    Forall (fun c => c = m) months /\
    (In m ms -> months <> []).
Proof.
  intros H. destruct (clean_month_texts pd raw out H) as [texts Hm].
  destruct (month_list_members out _ Hm) as [ms [Hl Hin]].
  exists ms. unfold month_df. rewrite Hm. cbn [bind].
  do 2 eexists. split; [exact Hl|]. split; [reflexivity|].
  rewrite getitem_frame_select, Hm. split; [reflexivity|]. split.
  - pose proof (select_self (elem_eq m) (map Str texts)) as S.
    apply Forall_forall. intros c Hc.
    pose proof (proj1 (Forall_forall _ _) S c Hc) as E.
    unfold elem_eq in E. apply andb_prop in E. destruct E as [_ E].
    apply cell_eqb_eq in E. congruence.
  - intros Hms. apply Hin in Hms.
    apply (select_self_nonempty (elem_eq m) m); [exact Hms|].
    apply in_map_iff in Hms. destruct Hms as [t [<- _]].
    unfold elem_eq. cbn [notna isna negb andb]. apply cell_eqb_refl.
Qed.

End MonthList.

(** ** Months and categories divide the rows *)

Lemma sum_counts_perm (l l' : list nat) :
  Permutation l l' -> sum_counts l = sum_counts l'.
Proof.
  induction 1; simpl; lia.
Qed.

Lemma sum_counts_split (f : cell -> nat) (k : cell) (l : list cell) :
  NoDup l ->
  sum_counts (map f l) =
  (if existsb (cell_eqb k) l then f k else 0)
  + sum_counts (map f (filter (fun y => negb (cell_eqb k y)) l)).
Proof.
  induction 1 as [|x l Hx _ IH]; simpl; [reflexivity|].
  destruct (cell_eqb k x) eqn:E; simpl.
  - apply cell_eqb_eq in E. subst x.
    assert (existsb (cell_eqb k) l = false) as N.
    { destruct (existsb (cell_eqb k) l) eqn:X; [|reflexivity].
      apply existsb_exists in X. destruct X as [y [Hy Ey]].
      apply cell_eqb_eq in Ey. subst y. contradiction. }
    rewrite N in IH. rewrite IH. lia.
  - rewrite IH. lia.
Qed.

Lemma count_absent (k : cell) (keys : column) :
  ~ In k keys -> count_true (map (cell_eqb k) keys) = 0.
Proof.
  induction keys as [|c keys IH]; simpl; intros H; [reflexivity|].
  destruct (cell_eqb k c) eqn:E.
  - apply cell_eqb_eq in E. subst c. exfalso. apply H. left. reflexivity.
  - apply IH. intros Hin. apply H. right. exact Hin.
Qed.

(** Every row is counted in the group of exactly one key. *)
Lemma unique_group_counts (keys : column) :
  sum_counts
    (map (fun g => count_true (map (cell_eqb g) keys)) (unique cell_eqb keys)) =
  List.length keys.
Proof.
  induction keys as [|k keys IH]; [reflexivity|].
  cbn [unique map sum_counts List.length].
  rewrite (map_ext_in _ (fun g => count_true (map (cell_eqb g) keys))
             (filter (fun y => negb (cell_eqb k y)) (unique cell_eqb keys))).
  2:{ intros g Hg. apply filter_In in Hg. destruct Hg as [_ Hg].
      cbn [map count_true]. rewrite cell_eqb_sym.
      destruct (cell_eqb k g); [discriminate Hg | reflexivity]. }
  cbn [count_true]. rewrite cell_eqb_refl. rewrite <- IH.
  rewrite (sum_counts_split
             (fun g => count_true (map (cell_eqb g) keys)) k
             (unique cell_eqb keys) (NoDup_unique cell_eqb cell_eqb_eq keys)).
  destruct (existsb (cell_eqb k) (unique cell_eqb keys)) eqn:X; [lia|].
  rewrite count_absent; [lia|]. intros Hin.
  apply (In_unique cell_eqb cell_eqb_eq) in Hin.
  assert (existsb (cell_eqb k) (unique cell_eqb keys) = true) as Y
    by (apply existsb_exists; exists k; split;
        [exact Hin | apply cell_eqb_refl]).
  congruence.
Qed.

Lemma elem_eq_text (m : cell) (texts : list string) :
  map (elem_eq m) (map Str texts) = map (cell_eqb m) (map Str texts).
Proof.
  rewrite !map_map. apply map_ext. intros t. reflexivity.
Qed.

Section MonthsDivideRows.

Variable pd : pandas.

(** X9: every row of a cleaned frame is a row of the month frame of exactly
    one month of the month list: the month frames of the listed months have,
    added up, as many rows as the cleaned frame. *)
Theorem month_frames_divide_the_rows (n : nat) (raw out : frame) :
  rectangular n raw ->
  load_and_clean pd raw = Ok out ->
  exists month ms,
    getitem out "Month" = Ok month /\
    month_list out = Ok ms /\
    (forall m, exists mdf,
       month_df out m = Ok mdf /\
       rectangular (count_true (map (elem_eq m) month)) mdf) /\
    rectangular
      (sum_counts (map (fun m => count_true (map (elem_eq m) month)) ms))
      out.
Proof.
  intros R H. destruct (clean_month_texts pd raw out H)
    as [texts Hm].
  destruct (load_and_clean_Ok pd raw out H)
    as (date & amount & category & direction & location
        & Hd & Ha & Hc & Hr & Hl & Hout).
  assert (rectangular (count_true (map notna (coerce_dates pd date)))
            out) as Rout.
  { rewrite Hout. apply rectangular_frame_select with (n := n).
    - apply prepared_rectangular; eauto using rectangular_getitem.
    - unfold coerce_dates. rewrite !length_map.
      eauto using rectangular_getitem. }
  pose proof (rectangular_getitem _ out _ _ Rout Hm) as Lm.
  exists (map Str texts). eexists.
  split; [exact Hm|]. split; [exact (month_list_of_texts out texts Hm)|].
  split.
  - intros m. unfold month_df. rewrite Hm. cbn [bind]. eexists.
    split; [reflexivity|].
    apply rectangular_frame_select with
      (n := count_true (map notna (coerce_dates pd date)));
      [exact Rout|].
    rewrite length_map. exact Lm.
  - rewrite <- (sort_map Str (fun a b => String.leb b a)
                  (fun a b => cell_leb b a)) by reflexivity.
    rewrite <- (unique_map Str String.eqb cell_eqb) by reflexivity.
    rewrite (sum_counts_perm _
               (map (fun m => count_true (map (elem_eq m) (map Str texts)))
                  (unique cell_eqb (map Str texts)))).
    2:{ apply Permutation_map. apply sort_perm. }
    rewrite (map_ext _ (fun g => count_true (map (cell_eqb g) (map Str texts)))).
    2:{ intros g. rewrite elem_eq_text. reflexivity. }
    rewrite unique_group_counts, Lm. exact Rout.
Qed.

End MonthsDivideRows.

(** ** The breakdowns *)

Section Breakdowns.

Variable pd : pandas.

(** X10: the category breakdown of a month has one row for each category
    that occurs in the month and for no other: its categories are distinct,
    they are the categories of the month's rows, and there is one sum for
    each. *)
Theorem cat_sum_has_the_categories_of_the_month (n : nat) (raw out : frame)
    (m : cell) :
  rectangular n raw ->
  load_and_clean pd raw = Ok out ->
  exists month category mdf cs groups sums,
    getitem out "Month" = Ok month /\
    getitem out "Category" = Ok category /\
    month_df out m = Ok mdf /\
    cat_sum pd mdf = Ok cs /\
    column_names cs = ["Category"; "Amount_numeric"] /\
    getitem cs "Category" = Ok groups /\
    getitem cs "Amount_numeric" = Ok sums /\
    NoDup groups /\
    List.length sums = List.length groups /\
    (forall g, In g groups <->
               In g (select (map (elem_eq m) month) category)).
Proof.
  intros R H.
  destruct (clean_keys pd n raw out R H)
    as (month & category & direction & amounts
        & Hm & Hc & Hr & Hn & Lm & Lc & Lr & Fm & Fc & Fr).
  exists month, category, (frame_select (map (elem_eq m) month) out).
  unfold month_df. rewrite Hm. cbn [bind].
  unfold cat_sum, groupby_sum.
  rewrite !getitem_frame_select, Hc, Hn. cbn [bind].
  do 3 eexists.
  split; [reflexivity|]. split; [reflexivity|]. split; [reflexivity|].
  split; [reflexivity|]. split; [reflexivity|].
  unfold group_sums.
  cbn [getitem String.eqb Ascii.eqb Bool.eqb].
  split; [reflexivity|]. split; [reflexivity|].
  set (cats := select (map (elem_eq m) month) category).
  assert (filter notna cats = cats) as F.
  { assert (Forall (fun c => notna c = true) cats) as N
      by (apply Forall_select; exact Fc).
    induction N as [|c l Hc' _ IH]; simpl; [reflexivity|].
    rewrite Hc', IH. reflexivity. }
  unfold group_keys. rewrite F.
  assert (Permutation (sort cell_leb (unique cell_eqb cats))
            (unique cell_eqb cats)) as P by apply sort_perm.
  split.
  { apply (Permutation_NoDup (Permutation_sym P)).
    apply NoDup_unique. exact cell_eqb_eq. }
  split; [rewrite length_map; reflexivity|].
  intros g. rewrite <- (In_unique cell_eqb cell_eqb_eq g cats). split.
  - apply Permutation_in. exact P.
  - apply Permutation_in. symmetry. exact P.
Qed.

(** X11: the breakdown of a month by category and direction has one row for
    each distinct pair of category and direction of the month's rows, with
    one sum for each, and every row of the month is in the group of exactly
    one pair: the amounts of the groups, taken together, are the amounts of
    the month's rows, each one once. *)
Theorem cat_type_divides_the_month (n : nat) (raw out : frame) (m : cell) :
  rectangular n raw ->
  load_and_clean pd raw = Ok out ->
  exists month category direction amounts mdf ct gc gd sums,
    getitem out "Month" = Ok month /\
    getitem out "Category" = Ok category /\
    getitem out "Received / paid" = Ok direction /\
    getitem out "Amount_numeric" = Ok amounts /\
    month_df out m = Ok mdf /\
    cat_type pd mdf = Ok ct /\
    getitem ct "Category" = Ok gc /\
    getitem ct "Received / paid" = Ok gd /\
    getitem ct "Amount_numeric" = Ok sums /\
    let in_month := map (elem_eq m) month in
    let keys :=
      combine (select in_month category) (select in_month direction) in
    let of_group g := select (map (pair_eqb g) keys) (select in_month amounts) in
    NoDup (combine gc gd) /\
    (forall p, In p (combine gc gd) <-> In p keys) /\
    List.length sums = List.length (combine gc gd) /\
    Permutation (flat_map of_group (combine gc gd)) (select in_month amounts).
Proof.
  intros R H.
  destruct (clean_keys pd n raw out R H)
    as (month & category & direction & amounts
        & Hm & Hc & Hr & Hn & Lm & Lc & Lr & Fm & Fc & Fr).
  set (in_month := map (elem_eq m) month).
  exists month, category, direction, amounts, (frame_select in_month out).
  unfold month_df. rewrite Hm. cbn [bind]. fold in_month.
  unfold cat_type, groupby2_sum.
  rewrite !getitem_frame_select, Hc, Hr, Hn. cbn [bind].
  destruct (group2_sums_facts pd "Category" "Received / paid" "Amount_numeric"
              (select in_month category) (select in_month direction)
              (select in_month amounts))
    as (gc & gd & sums & G1 & G2 & G3 & Nd & Hin & Es & Hp);
    try discriminate;
    try (apply length_select_same; assumption);
    try (apply Forall_select; assumption).
  eexists. exists gc, gd, sums.
  repeat (split; [first [assumption | reflexivity]|]).
  cbv zeta. repeat split; try assumption; try apply Hin.
  rewrite Es, length_map. reflexivity.
Qed.

(** X12: the trend table, as the [groupby] leaves it, has one row for each
    distinct pair of month and direction of the cleaned frame, with one sum
    for each, and every row of the frame is in the group of exactly one
    pair. *)
Theorem trend_groups_divide_the_frame (n : nat) (raw out : frame) :
  rectangular n raw ->
  load_and_clean pd raw = Ok out ->
  exists month direction amounts tg gm gd sums,
    getitem out "Month" = Ok month /\
    getitem out "Received / paid" = Ok direction /\
    getitem out "Amount_numeric" = Ok amounts /\
    trend_groups pd out = Ok tg /\
    getitem tg "Month" = Ok gm /\
    getitem tg "Received / paid" = Ok gd /\
    getitem tg "Amount_numeric" = Ok sums /\
    let of_group g :=
      select (map (pair_eqb g) (combine month direction)) amounts in
    NoDup (combine gm gd) /\
    (forall p, In p (combine gm gd) <-> In p (combine month direction)) /\
    List.length sums = List.length (combine gm gd) /\
    Permutation (flat_map of_group (combine gm gd)) amounts.
Proof.
  intros R H.
  destruct (clean_keys pd n raw out R H)
    as (month & category & direction & amounts
        & Hm & Hc & Hr & Hn & Lm & Lc & Lr & Fm & Fc & Fr).
  exists month, direction, amounts.
  unfold trend_groups, groupby2_sum. rewrite Hm, Hr, Hn. cbn [bind].
  destruct (group2_sums_facts pd "Month" "Received / paid" "Amount_numeric"
              month direction amounts)
    as (gm & gd & sums & G1 & G2 & G3 & Nd & Hin & Es & Hp);
    try discriminate; try assumption.
  eexists. exists gm, gd, sums.
  repeat (split; [first [assumption | reflexivity]|]).
  cbv zeta. repeat split; try assumption; try apply Hin.
  rewrite Es, length_map. reflexivity.
Qed.

End Breakdowns.

(** ** The detail table *)

Lemma strftime_prefix_date_str (t : timestamp) :
  prefix (strftime_Ym t) (date_str t) = true.
Proof.
  apply prefix_app. exists ("-" ++ zero_padded 2 (ts_day t)).
  unfold strftime_Ym, date_str. rewrite !string_app_assoc. reflexivity.
Qed.

Lemma strftime_prefix_isoformat_sep (sep : string) (t : timestamp) :
  prefix (strftime_Ym t) (isoformat_sep sep t) = true.
Proof.
  apply prefix_app. eexists.
  unfold strftime_Ym, isoformat_sep. rewrite !string_app_assoc. reflexivity.
Qed.

Lemma datetime_astype_str_month (m : string) (dates : column) :
  Forall (fun c => exists t, c = Ts t /\ strftime_Ym t = m) dates ->
  Forall (fun c => exists s, c = Str s /\ prefix m s = true)
    (datetime_astype_str dates).
Proof.
  intros H. unfold datetime_astype_str.
  generalize (forallb (fun c => match c with Ts t => at_midnight t | _ => true end)
                dates).
  intros date_only. induction H as [|c l [t [-> <-]] _ IH]; simpl;
    constructor; [|exact IH].
  eexists. split; [reflexivity|].
  destruct date_only;
    [apply strftime_prefix_date_str | apply strftime_prefix_isoformat_sep].
Qed.

Section DetailTable.

Variable pd : pandas.

(** X13: the detail table of a month has the five columns of [cols] in
    that order, and each of its dates is text that begins with the selected
    month. *)
Theorem detail_table_shows_the_month (raw out : frame) (m : string) :
  load_and_clean pd raw = Ok out ->
  exists mdf detail dates,
    month_df out (Str m) = Ok mdf /\
    month_df_display mdf = Ok detail /\
    column_names detail = cols /\
    getitem detail "Date" = Ok dates /\
    Forall (fun c => exists s, c = Str s /\ prefix m s = true) dates.
Proof.
  intros H.
  destruct (clean_columns pd raw out H)
    as (date & amount & category & direction & location
        & _ & _ & _ & _ & _ & Od & Oa & Oc & Or & Ol & On & Om).
  cbv zeta in *.
  set (parsed := coerce_dates pd date) in *.
  set (keep := map notna parsed) in *.
  rewrite select_map in Om.
  set (kept := select keep parsed) in *.
  set (in_month := map (elem_eq (Str m)) (map dt_strftime_Ym kept)).
  exists (frame_select in_month out).
  unfold month_df. rewrite Om. cbn [bind]. fold in_month.
  rewrite (project_cols (frame_select in_month out)
             (select in_month kept)
             (select in_month (select keep (fillna (Str "Uncategorized") category)))
             (select in_month (select keep amount))
             (select in_month (select keep (fillna (Str "Unknown") direction)))
             (select in_month (select keep (fillna (Str EmptyString) location))));
    try (rewrite getitem_frame_select;
         first [rewrite Od | rewrite Oc | rewrite Oa | rewrite Or | rewrite Ol];
         reflexivity).
  do 2 eexists. split; [reflexivity|]. split; [reflexivity|].
  split; [reflexivity|]. split; [reflexivity|].
  apply datetime_astype_str_month.
  assert (Forall is_timestamp kept) as K
    by apply kept_dates_are_timestamps.
  unfold in_month. rewrite map_map.
  pose proof (select_self (fun c => elem_eq (Str m) (dt_strftime_Ym c)) kept)
    as S.
  pose proof (Forall_select _
                (map (fun c => elem_eq (Str m) (dt_strftime_Ym c)) kept) _ K)
    as T.
  apply Forall_forall. intros c Hc.
  pose proof (proj1 (Forall_forall _ _) S c Hc) as E.
  destruct (proj1 (Forall_forall _ _) T c Hc) as [t ->].
  exists t. split; [reflexivity|].
  cbn [dt_strftime_Ym elem_eq notna isna negb andb cell_eqb] in E.
  apply String.eqb_eq in E. symmetry. exact E.
Qed.

End DetailTable.

(** ** The further properties on the worked example *)

(** The scenario: its index column is gone, the two derived columns come
    last. *)
Lemma load_and_clean_column_names_witness :
  example_load_and_clean scenario = Ok scenario_clean /\
  column_names scenario_clean =
    (filter (fun k => negb (startswith "Unnamed" k)) (column_names scenario)
     ++ (if has_column scenario "Amount_numeric" then [] else ["Amount_numeric"])
     ++ (if has_column scenario "Month" then [] else ["Month"]))%list /\
  Forall (fun k => startswith "Unnamed" k = false) (column_names scenario_clean).
Proof.
  split; [exact scenario_cleaned|].
  exact (load_and_clean_column_names pd_example
           scenario scenario_clean scenario_cleaned).
Defined.

(** The scenario: its [Amount] column is one the normalizer does not
    assign. *)
Lemma other_columns_pass_through_witness :
  example_load_and_clean scenario = Ok scenario_clean /\
  exists date,
    getitem scenario "Date" = Ok date /\
    (forall k c,
       startswith "Unnamed" k = false ->
       ~ In k assigned_columns ->
       getitem scenario k = Ok c ->
       getitem scenario_clean k =
         Ok (select (map notna (coerce_dates pd_example date)) c)) /\
    (forall k,
       startswith "Unnamed" k = true ->
       getitem scenario_clean k = Raise (KeyError k)).
Proof.
  split; [exact scenario_cleaned|].
  exact (other_columns_pass_through pd_example
           scenario scenario_clean scenario_cleaned).
Defined.

(** The scenario: three rows in, two out. *)
Lemma load_and_clean_row_count_witness :
  rectangular 3 scenario /\
  example_load_and_clean scenario = Ok scenario_clean /\
  exists date m,
    getitem scenario "Date" = Ok date /\
    rectangular m scenario_clean /\
    m <= 3 /\
    (m = 3 <->
     Forall (fun c => notna c = true) (coerce_dates pd_example date)).
Proof.
  split; [exact scenario_rectangular|]. split; [exact scenario_cleaned|].
  exact (load_and_clean_row_count pd_example 3
           scenario scenario_clean scenario_rectangular scenario_cleaned).
Defined.

(** The scenario: its month list. *)
Lemma month_list_descending_distinct_witness :
  example_load_and_clean scenario = Ok scenario_clean /\
  exists month ms,
    getitem scenario_clean "Month" = Ok month /\
    month_list scenario_clean = Ok (map Str ms) /\
    strictly_descending ms /\
    (forall m, In m ms <-> In (Str m) month).
Proof.
  split; [exact scenario_cleaned|].
  exact (month_list_descending_distinct pd_example
           scenario scenario_clean scenario_cleaned).
Defined.

(** The scenario and January 2024, the month of its list. *)
Lemma month_df_holds_the_selected_month_witness :
  example_load_and_clean scenario = Ok scenario_clean /\
  exists ms mdf months,
    month_list scenario_clean = Ok ms /\
    month_df scenario_clean (Str "2024-01") = Ok mdf /\
    getitem mdf "Month" = Ok months /\
    Forall (fun c => c = Str "2024-01") months /\
    (In (Str "2024-01") ms -> months <> []).
Proof.
  split; [exact scenario_cleaned|].
  exact (month_df_holds_the_selected_month pd_example
           scenario scenario_clean (Str "2024-01") scenario_cleaned).
Defined.

(** The scenario: the frame of its one month has its two rows. *)
Lemma month_frames_divide_the_rows_witness :
  rectangular 3 scenario /\
  example_load_and_clean scenario = Ok scenario_clean /\
  exists month ms,
    getitem scenario_clean "Month" = Ok month /\
    month_list scenario_clean = Ok ms /\
    (forall m, exists mdf,
       month_df scenario_clean m = Ok mdf /\
       rectangular (count_true (map (elem_eq m) month)) mdf) /\
    rectangular
      (sum_counts (map (fun m => count_true (map (elem_eq m) month)) ms))
      scenario_clean.
Proof.
  split; [exact scenario_rectangular|]. split; [exact scenario_cleaned|].
  exact (month_frames_divide_the_rows pd_example 3
           scenario scenario_clean scenario_rectangular scenario_cleaned).
Defined.

(** The scenario in January 2024: the categories Food and Salary. *)
Lemma cat_sum_has_the_categories_of_the_month_witness :
  rectangular 3 scenario /\
  example_load_and_clean scenario = Ok scenario_clean /\
  exists month category mdf cs groups sums,
    getitem scenario_clean "Month" = Ok month /\
    getitem scenario_clean "Category" = Ok category /\
    month_df scenario_clean (Str "2024-01") = Ok mdf /\
    cat_sum pd_example mdf = Ok cs /\
    column_names cs = ["Category"; "Amount_numeric"] /\
    getitem cs "Category" = Ok groups /\
    getitem cs "Amount_numeric" = Ok sums /\
    NoDup groups /\
    List.length sums = List.length groups /\
    (forall g, In g groups <->
               In g (select (map (elem_eq (Str "2024-01")) month) category)).
Proof.
  split; [exact scenario_rectangular|]. split; [exact scenario_cleaned|].
  exact (cat_sum_has_the_categories_of_the_month pd_example
           3 scenario scenario_clean (Str "2024-01")
           scenario_rectangular scenario_cleaned).
Defined.

(** The scenario in January 2024. *)
Lemma cat_type_divides_the_month_witness :
  rectangular 3 scenario /\
  example_load_and_clean scenario = Ok scenario_clean /\
  exists month category direction amounts mdf ct gc gd sums,
    getitem scenario_clean "Month" = Ok month /\
    getitem scenario_clean "Category" = Ok category /\
    getitem scenario_clean "Received / paid" = Ok direction /\
    getitem scenario_clean "Amount_numeric" = Ok amounts /\
    month_df scenario_clean (Str "2024-01") = Ok mdf /\
    cat_type pd_example mdf = Ok ct /\
    getitem ct "Category" = Ok gc /\
    getitem ct "Received / paid" = Ok gd /\
    getitem ct "Amount_numeric" = Ok sums /\
    let in_month := map (elem_eq (Str "2024-01")) month in
    let keys :=
      combine (select in_month category) (select in_month direction) in
    let of_group g := select (map (pair_eqb g) keys) (select in_month amounts) in
    NoDup (combine gc gd) /\
    (forall p, In p (combine gc gd) <-> In p keys) /\
    List.length sums = List.length (combine gc gd) /\
    Permutation (flat_map of_group (combine gc gd)) (select in_month amounts).
Proof.
  split; [exact scenario_rectangular|]. split; [exact scenario_cleaned|].
  exact (cat_type_divides_the_month pd_example 3
           scenario scenario_clean (Str "2024-01")
           scenario_rectangular scenario_cleaned).
Defined.

(** The scenario: the trend over its one month. *)
Lemma trend_groups_divide_the_frame_witness :
  rectangular 3 scenario /\
  example_load_and_clean scenario = Ok scenario_clean /\
  exists month direction amounts tg gm gd sums,
    getitem scenario_clean "Month" = Ok month /\
    getitem scenario_clean "Received / paid" = Ok direction /\
    getitem scenario_clean "Amount_numeric" = Ok amounts /\
    trend_groups pd_example scenario_clean = Ok tg /\
    getitem tg "Month" = Ok gm /\
    getitem tg "Received / paid" = Ok gd /\
    getitem tg "Amount_numeric" = Ok sums /\
    let of_group g :=
      select (map (pair_eqb g) (combine month direction)) amounts in
    NoDup (combine gm gd) /\
    (forall p, In p (combine gm gd) <-> In p (combine month direction)) /\
    List.length sums = List.length (combine gm gd) /\
    Permutation (flat_map of_group (combine gm gd)) amounts.
Proof.
  split; [exact scenario_rectangular|]. split; [exact scenario_cleaned|].
  exact (trend_groups_divide_the_frame pd_example 3
           scenario scenario_clean scenario_rectangular scenario_cleaned).
Defined.

(** The scenario in January 2024: its detail table. *)
Lemma detail_table_shows_the_month_witness :
  example_load_and_clean scenario = Ok scenario_clean /\
  exists mdf detail dates,
    month_df scenario_clean (Str "2024-01") = Ok mdf /\
    month_df_display mdf = Ok detail /\
    column_names detail = cols /\
    getitem detail "Date" = Ok dates /\
    Forall (fun c => exists s, c = Str s /\ prefix "2024-01" s = true) dates.
Proof.
  split; [exact scenario_cleaned|].
  exact (detail_table_shows_the_month pd_example
           scenario scenario_clean "2024-01" scenario_cleaned).
Defined.
